(** * Component Store API: Postman collection generator (script.py)

    A shallow embedding of [script.py] and of the parts of the Python
    runtime it calls ([json.dumps] / [json.dump], [json.loads],
    [float.__repr__], [uuid.uuid4], [datetime.now().strftime], [open],
    [print]), followed by the properties of the generated documents.

    Python [str] values are modelled as Rocq byte strings holding the
    UTF-8 encoding of the text; Python [dict]s keep their insertion order
    and are association lists; Python [float]s are IEEE-754 binary64
    numbers in the [spec_float] model of the Standard Library. *)

From Stdlib Require Import ZArith NArith String Ascii List Bool Lia.
From Stdlib Require Import Floats.SpecFloat.
From stdpp Require Import base option list strings pretty gmap sets.

Open Scope list_scope.
Open Scope string_scope.

(* ===================================================================== *)
(** ** Python strings                                                     *)
(* ===================================================================== *)

Module PyStr.

(** The double quote, the backslash and the control characters that
    Python writes with an escape in a literal. *)
Definition dquote : ascii := ascii_of_nat 34.
Definition dq : string := String dquote "".
Definition nl : string := String (ascii_of_nat 10) "".

(** [sep.join(parts)] *)
Fixpoint join (sep : string) (parts : list string) : string :=
  match parts with
  | [] => ""
  | [p] => p
  | p :: rest => p ++ sep ++ join sep rest
  end.

(** ["c" * n] *)
Fixpoint repeat_str (c : string) (n : nat) : string :=
  match n with
  | O => ""
  | S n' => c ++ repeat_str c n'
  end.

(** [needle in hay] on strings. *)
Fixpoint contains (needle hay : string) : bool :=
  String.prefix needle hay
  || match hay with
     | "" => false
     | String _ hay' => contains needle hay'
     end.

(** [s.rstrip(c)] for a single character [c], on the reversed string. *)
Fixpoint lstrip_char (c : ascii) (s : string) : string :=
  match s with
  | String d s' => if Ascii.eqb c d then lstrip_char c s' else s
  | "" => ""
  end.

Definition rstrip_char (c : ascii) (s : string) : string :=
  String.rev (lstrip_char c (String.rev s)).

(** [str(n).zfill(w)] for a natural number: what [%m], [%d], [%H], [%M],
    [%S] (width 2) and [%Y] (width 4) of [strftime] print. *)
Definition zfill (w : nat) (n : nat) : string :=
  let s := pretty n in
  repeat_str "0" (w - String.length s) ++ s.

(** *** UTF-8: the code points of a [str] *)

Definition cont (c : ascii) : N := N.land (N_of_ascii c) 63.

Fixpoint code_points (s : string) : list N :=
  match s with
  | "" => []
  | String c0 s1 =>
      let b0 := N_of_ascii c0 in
      if (b0 <? 192)%N then b0 :: code_points s1
      else match s1 with
      | "" => [b0]
      | String c1 s2 =>
          if (b0 <? 224)%N
          then (N.shiftl (N.land b0 31) 6 + cont c1)%N :: code_points s2
          else match s2 with
          | "" => [b0; N_of_ascii c1]
          | String c2 s3 =>
              if (b0 <? 240)%N
              then (N.shiftl (N.land b0 15) 12 + N.shiftl (cont c1) 6
                    + cont c2)%N :: code_points s3
              else match s3 with
              | "" => [b0; N_of_ascii c1; N_of_ascii c2]
              | String c3 s4 =>
                  (N.shiftl (N.land b0 7) 18 + N.shiftl (cont c1) 12
                   + N.shiftl (cont c2) 6 + cont c3)%N :: code_points s4
              end
          end
      end
  end.

Definition byte (n : N) : string := String (ascii_of_N n) "".

(** The UTF-8 bytes of one code point (a lone surrogate is written in
    the three-byte form, as the [surrogatepass] handler does). *)
Definition utf8 (cp : N) : string :=
  if (cp <? 128)%N then byte cp
  else if (cp <? 2048)%N then
    byte (192 + N.shiftr cp 6) ++ byte (128 + N.land cp 63)
  else if (cp <? 65536)%N then
    byte (224 + N.shiftr cp 12) ++ byte (128 + N.land (N.shiftr cp 6) 63)
    ++ byte (128 + N.land cp 63)
  else
    byte (240 + N.shiftr cp 18) ++ byte (128 + N.land (N.shiftr cp 12) 63)
    ++ byte (128 + N.land (N.shiftr cp 6) 63) ++ byte (128 + N.land cp 63).

(** ['{0:04x}'.format(n)] for [n < 0x10000]. *)
Definition hex_digit (n : N) : string :=
  match String.get (N.to_nat n) "0123456789abcdef" with
  | Some c => String c ""
  | None => "?"
  end.

Definition hex4 (n : N) : string :=
  hex_digit (N.land (N.shiftr n 12) 15) ++ hex_digit (N.land (N.shiftr n 8) 15)
  ++ hex_digit (N.land (N.shiftr n 4) 15) ++ hex_digit (N.land n 15).

End PyStr.

(* ===================================================================== *)
(** ** Python floats                                                      *)
(* ===================================================================== *)

Module PyFloat.

Definition prec : Z := 53.
Definition emax : Z := 1024.

(** The binary64 number nearest to [n / d] (ties to even), for
    [0 <= n] and [0 < d]. *)
Definition round_ratio (neg : bool) (n d : Z) : spec_float :=
  if (n =? 0)%Z then S754_zero neg
  else
    let '(q, e, l) := SFdiv_core_binary prec emax n 0 d 0 in
    binary_round_aux prec emax neg q e l.

(** [float("<m>e<k>")]: the correctly rounded value of [m * 10^k]; this
    is also how the compiler reads a float literal of the source. *)
Definition of_decimal (neg : bool) (m k : Z) : spec_float :=
  if (0 <=? k)%Z then round_ratio neg (m * 10 ^ k) 1
  else round_ratio neg m (10 ^ (- k)).

Definition eqb (x y : spec_float) : bool :=
  match x, y with
  | S754_zero a, S754_zero b => Bool.eqb a b
  | S754_infinity a, S754_infinity b => Bool.eqb a b
  | S754_nan, S754_nan => true
  | S754_finite a m e, S754_finite b m' e' =>
      Bool.eqb a b && Pos.eqb m m' && Z.eqb e e'
  | _, _ => false
  end.

(** *** [float.__repr__]: the shortest digit string that reads back *)

Section Shortest.
(** the positive number [num / den], and the float [x] it is *)
Variables (num den : Z) (x : spec_float).

(** [num / den < 10 ^ k] *)
Definition below_pow10 (k : Z) : bool :=
  if (0 <=? k)%Z then (num <? den * 10 ^ k)%Z
  else (num * 10 ^ (- k) <? den)%Z.

(** the least [k >= k0] with [num / den < 10 ^ k] *)
Fixpoint decpt_from (fuel : nat) (k0 : Z) : Z :=
  match fuel with
  | O => k0
  | S fuel' => if below_pow10 k0 then k0 else decpt_from fuel' (k0 + 1)
  end.

(** The position of the decimal point: the search starts from an
    under-estimate taken from the binary logarithms
    ([log10 2 < 0.30103]). *)
Definition decpt : Z :=
  decpt_from 8 ((Z.log2 num - Z.log2 den) * 30103 / 100000 - 1).

Section Digits.
Variable pt : Z.

(** The [n]-digit candidates around [num / den]: the floor and the
    remainder of [num / den / 10 ^ (pt - n)]. *)
Definition scaled (n : Z) : Z * Z * Z :=
  let k := (pt - n)%Z in
  let '(a, b) := if (0 <=? k)%Z then (num, den * 10 ^ k)%Z
                 else (num * 10 ^ (- k), den)%Z in
  (a / b, a mod b, b)%Z.

Definition reads_back (c n : Z) : bool :=
  eqb (of_decimal false c (pt - n)) x.

(** the nearest [n]-digit decimal that reads back as [x], if any *)
Definition candidate (n : Z) : option Z :=
  let '(lo, r, b) := scaled n in
  let hi := (lo + 1)%Z in
  let lo_ok := reads_back lo n in
  let hi_ok := negb (r =? 0)%Z && reads_back hi n in
  match lo_ok, hi_ok with
  | true, true =>
      match (2 * r ?= b)%Z with
      | Lt => Some lo
      | Gt => Some hi
      | Eq => Some (if Z.even lo then lo else hi)
      end
  | true, false => Some lo
  | false, true => Some hi
  | false, false => None
  end.

Fixpoint shortest_from (fuel : nat) (n : Z) : Z * Z :=
  match fuel with
  | O => (fst (fst (scaled 17)), 17%Z)
  | S fuel' =>
      match candidate n with
      | Some c => (c, n)
      | None => shortest_from fuel' (n + 1)
      end
  end.
End Digits.

(** the digits and the position of the decimal point *)
Definition shortest : string * Z :=
  let pt := decpt in
  let '(c, n) := shortest_from pt 17 1 in
  let s := pretty c in
  (PyStr.rstrip_char "0" s, (pt - n + Z.of_nat (String.length s))%Z).
End Shortest.

Definition digits_of (m : positive) (e : Z) : string * Z :=
  let '(num, den) := if (0 <=? e)%Z then (Zpos m * 2 ^ e, 1)%Z
                     else (Zpos m, 2 ^ (- e))%Z in
  shortest num den (S754_finite false m e).

(** the layout of format code ['r'] *)
Definition layout (digits : string) (pt : Z) : string :=
  let len := Z.of_nat (String.length digits) in
  if ((pt <=? -4) || (16 <? pt))%Z then
    let e := (pt - 1)%Z in
    let ds := pretty (Z.abs e) in
    String.substring 0 1 digits
    ++ (if (1 <? len)%Z
        then "." ++ String.substring 1 (String.length digits - 1) digits
        else "")
    ++ "e" ++ (if (e <? 0)%Z then "-" else "+")
    ++ PyStr.repeat_str "0" (2 - String.length ds) ++ ds
  else if (pt <=? 0)%Z then
    "0." ++ PyStr.repeat_str "0" (Z.to_nat (- pt)) ++ digits
  else if (len <=? pt)%Z then
    digits ++ PyStr.repeat_str "0" (Z.to_nat (pt - len)) ++ ".0"
  else
    String.substring 0 (Z.to_nat pt) digits ++ "."
    ++ String.substring (Z.to_nat pt) (String.length digits - Z.to_nat pt) digits.

Definition repr (x : spec_float) : string :=
  match x with
  | S754_zero s => if s then "-0.0" else "0.0"
  | S754_infinity s => if s then "-inf" else "inf"
  | S754_nan => "nan"
  | S754_finite s m e =>
      let '(digits, pt) := digits_of m e in
      (if s then "-" else "") ++ layout digits pt
  end.

End PyFloat.

(* ===================================================================== *)
(** ** Python values                                                      *)
(* ===================================================================== *)

(** The values the script builds and serialises: [None], [bool], [int],
    [float], [str], [list] and [dict] with [str] keys in insertion order. *)
Unset Elimination Schemes.
Inductive pyval : Type :=
| PNone
| PBool (b : bool)
| PInt (z : Z)
| PFloat (x : spec_float)
| PStr (s : string)
| PList (l : list pyval)
| PDict (d : list (string * pyval)).
Set Elimination Schemes.

Module Py.

(** [d.get(k)] on the items of a dict: [None] when the key is absent. *)
Fixpoint assoc (k : string) (d : list (string * pyval)) : option pyval :=
  match d with
  | [] => None
  | (k', v) :: d' => if String.eqb k k' then Some v else assoc k d'
  end.

(** [d[k] = v] on the items of a dict: an existing key keeps its place. *)
Fixpoint assoc_set (k : string) (v : pyval) (d : list (string * pyval))
  : list (string * pyval) :=
  match d with
  | [] => [(k, v)]
  | (k', v') :: d' =>
      if String.eqb k k' then (k, v) :: d' else (k', v') :: assoc_set k v d'
  end.

(** [v[k]]; [None] when [v] is not a dict or has no key [k]. *)
Definition get (k : string) (v : pyval) : option pyval :=
  match v with
  | PDict d => assoc k d
  | _ => None
  end.

(** [v[k] = x] for a dict [v] *)
Definition set (k : string) (x : pyval) (v : pyval) : pyval :=
  match v with
  | PDict d => PDict (assoc_set k x d)
  | _ => v
  end.

(** [list(v.keys())] *)
Definition keys (v : pyval) : list string :=
  match v with
  | PDict d => map fst d
  | _ => []
  end.

(** the elements of a list value *)
Definition elems (v : pyval) : list pyval :=
  match v with
  | PList l => l
  | _ => []
  end.

Definition str (v : pyval) : option string :=
  match v with
  | PStr s => Some s
  | _ => None
  end.

(** [v[k]] read as a string / as a list *)
Definition get_str (k : string) (v : pyval) : option string :=
  get k v ≫= str.

Definition get_list (k : string) (v : pyval) : list pyval :=
  match get k v with
  | Some x => elems x
  | None => []
  end.

End Py.

(* ===================================================================== *)
(** ** The [json] module                                                  *)
(* ===================================================================== *)

Module Json.
Import PyStr.

(** *** Encoder: [json.dumps(obj, indent=..., ensure_ascii=...)] *)

(** the escapes of [ESCAPE_DCT] that have a short form *)
Definition short_escape (cp : N) : option string :=
  match cp with
  | 34%N => Some ("\" ++ dq)
  | 92%N => Some "\\"
  | 8%N => Some "\b"
  | 12%N => Some "\f"
  | 10%N => Some "\n"
  | 13%N => Some "\r"
  | 9%N => Some "\t"
  | _ => None
  end.

(** [encode_basestring]: only the quote, the backslash and the control
    characters are escaped; every other byte is copied. *)
Fixpoint escape_bytes (s : string) : string :=
  match s with
  | "" => ""
  | String c s' =>
      let b := N_of_ascii c in
      match short_escape b with
      | Some e => e ++ escape_bytes s'
      | None =>
          if (b <? 32)%N then "\u" ++ hex4 b ++ escape_bytes s'
          else String c (escape_bytes s')
      end
  end.

(** [encode_basestring_ascii]: everything outside [' '..'~'] is escaped,
    code points above the BMP as a surrogate pair. *)
Definition escape_code_point (cp : N) : string :=
  match short_escape cp with
  | Some e => e
  | None =>
      if ((32 <=? cp) && (cp <=? 126))%N then byte cp
      else if (cp <? 65536)%N then "\u" ++ hex4 cp
      else
        let v := (cp - 65536)%N in
        "\u" ++ hex4 (N.lor 55296 (N.land (N.shiftr v 10) 1023))
        ++ "\u" ++ hex4 (N.lor 56320 (N.land v 1023))
  end.

Definition encode_string (ensure_ascii : bool) (s : string) : string :=
  dq ++ (if ensure_ascii
         then String.concat "" (map escape_code_point (code_points s))
         else escape_bytes s) ++ dq.

(** [floatstr] with [allow_nan=True] *)
Definition floatstr (x : spec_float) : string :=
  match x with
  | S754_nan => "NaN"
  | S754_infinity false => "Infinity"
  | S754_infinity true => "-Infinity"
  | _ => PyFloat.repr x
  end.

Section Encoder.
Variables (indent : option nat) (ensure_ascii : bool).

(** the newline and indentation written before an item at [level] *)
Definition newline_indent (level : nat) : string :=
  match indent with
  | Some n => nl ++ repeat_str " " (n * level)
  | None => ""
  end.

Definition item_separator (level : nat) : string :=
  match indent with
  | Some _ => "," ++ newline_indent level
  | None => ", "
  end.

Definition key_separator : string := ": ".

Fixpoint iterencode (level : nat) (o : pyval) : string :=
  match o with
  | PNone => "null"
  | PBool true => "true"
  | PBool false => "false"
  | PInt z => pretty z
  | PFloat x => floatstr x
  | PStr s => encode_string ensure_ascii s
  | PList [] => "[]"
  | PList l =>
      "[" ++ newline_indent (S level)
      ++ join (item_separator (S level)) (map (iterencode (S level)) l)
      ++ newline_indent level ++ "]"
  | PDict [] => "{}"
  | PDict d =>
      "{" ++ newline_indent (S level)
      ++ join (item_separator (S level))
           (map (fun kv => encode_string ensure_ascii (fst kv)
                           ++ key_separator ++ iterencode (S level) (snd kv)) d)
      ++ newline_indent level ++ "}"
  end.
End Encoder.

Definition dumps (o : pyval) (indent : option nat) (ensure_ascii : bool) : string :=
  iterencode indent ensure_ascii 0 o.

(** *** Decoder: [json.loads(s)]

    [None] stands for a raised [JSONDecodeError].  The scanner recurses
    into nested containers; [fuel] bounds that recursion and [loads]
    supplies more than the text can use. *)

Definition is_char (code : N) (c : ascii) : bool := (N_of_ascii c =? code)%N.

Definition is_ws (c : ascii) : bool :=
  is_char 32 c || is_char 9 c || is_char 10 c || is_char 13 c.

Fixpoint skip_ws (s : string) : string :=
  match s with
  | String c s' => if is_ws c then skip_ws s' else s
  | "" => ""
  end.

Definition is_digit (c : ascii) : bool :=
  let n := N_of_ascii c in ((48 <=? n) && (n <=? 57))%N.

Definition digit_val (c : ascii) : Z := Z.of_N (N_of_ascii c - 48).

(** [[0-9]*]: the value of the digits read after [acc], how many there
    were, and the rest of the text *)
Fixpoint span_digits (acc : Z) (n : nat) (s : string) : Z * nat * string :=
  match s with
  | String c s' =>
      if is_digit c then span_digits (10 * acc + digit_val c) (S n) s'
      else (acc, n, s)
  | "" => (acc, n, "")
  end.

Definition hex_val (c : ascii) : option N :=
  let n := N_of_ascii c in
  if ((48 <=? n) && (n <=? 57))%N then Some (n - 48)%N
  else if ((97 <=? n) && (n <=? 102))%N then Some (n - 87)%N
  else if ((65 <=? n) && (n <=? 70))%N then Some (n - 55)%N
  else None.

(** [_decode_uXXXX] on the four characters after [\u] *)
Definition decode_uXXXX (a b c d : ascii) : option N :=
  x1 ← hex_val a; x2 ← hex_val b; x3 ← hex_val c; x4 ← hex_val d;
  Some (((x1 * 16 + x2) * 16 + x3) * 16 + x4)%N.

(** the character a one-letter escape stands for ([BACKSLASH]) *)
Definition unescape (e : ascii) : option N :=
  if is_char 34 e then Some 34%N          (* quote *)
  else if is_char 92 e then Some 92%N     (* backslash *)
  else if is_char 47 e then Some 47%N     (* slash *)
  else if is_char 98 e then Some 8%N      (* b *)
  else if is_char 102 e then Some 12%N    (* f *)
  else if is_char 110 e then Some 10%N    (* n *)
  else if is_char 114 e then Some 13%N    (* r *)
  else if is_char 116 e then Some 9%N     (* t *)
  else None.

Definition emit (cp : N) (r : option (string * string)) : option (string * string) :=
  '(t, rest) ← r; Some (utf8 cp ++ t, rest).

(** [py_scanstring(s, end, strict=True)], from the character after the
    opening quote: the decoded text and what follows the closing quote *)
Fixpoint scanstring (s : string) : option (string * string) :=
  match s with
  | "" => None
  | String c s1 =>
      if is_char 34 c then Some ("", s1)
      else if is_char 92 c then
        match s1 with
        | "" => None
        | String e s2 =>
            if is_char 117 e then
              match s2 with
              | String h1 (String h2 (String h3 (String h4 s3))) =>
                  match decode_uXXXX h1 h2 h3 h4 with
                  | None => None
                  | Some uni =>
                      if ((55296 <=? uni) && (uni <=? 56319))%N then
                        match s3 with
                        | String b1 (String b2 s4) =>
                            if is_char 92 b1 && is_char 117 b2 then
                              match s4 with
                              | String k1 (String k2 (String k3 (String k4 s5))) =>
                                  match decode_uXXXX k1 k2 k3 k4 with
                                  | None => None
                                  | Some uni2 =>
                                      if ((56320 <=? uni2) && (uni2 <=? 57343))%N
                                      then emit (65536 + N.lor (N.shiftl (uni - 55296) 10)
                                                               (uni2 - 56320))%N
                                                (scanstring s5)
                                      else emit uni (scanstring s3)
                                  end
                              | _ => None
                              end
                            else emit uni (scanstring s3)
                        | _ => emit uni (scanstring s3)
                        end
                      else emit uni (scanstring s3)
                  end
              | _ => None
              end
            else
              match unescape e with
              | Some cp => emit cp (scanstring s2)
              | None => None
              end
        end
      else if (N_of_ascii c <? 32)%N then None
      else '(t, rest) ← scanstring s1; Some (String c t, rest)
  end.

(** [NUMBER_RE]: an optional minus sign and either a single 0 or a
    non-zero digit with any digits after it; then, optionally, a dot
    with at least one digit; then, optionally, e or E, an optional sign
    and at least one digit. *)
Definition match_frac (s : string) : option (Z * nat * string) :=
  match s with
  | String c (String d s') =>
      if is_char 46 c && is_digit d then Some (span_digits 0 0 (String d s')) else None
  | _ => None
  end.

Definition match_exp (s : string) : option (Z * string) :=
  match s with
  | String c s1 =>
      if is_char 101 c || is_char 69 c then
        let '(neg, s2) :=
          match s1 with
          | String g s2 =>
              if is_char 45 g then (true, s2)
              else if is_char 43 g then (false, s2) else (false, s1)
          | "" => (false, s1)
          end in
        match s2 with
        | String d _ =>
            if is_digit d then
              let '(v, _, rest) := span_digits 0 0 s2 in
              Some (if neg then (- v)%Z else v, rest)
            else None
        | "" => None
        end
      else None
  | "" => None
  end.

Definition match_number (s : string) : option (pyval * string) :=
  let '(neg, s1) :=
    match s with
    | String c s' => if is_char 45 c then (true, s') else (false, s)
    | "" => (false, s)
    end in
  match s1 with
  | String d s2 =>
      if is_digit d then
        let '(int, _, s3) :=
          if is_char 48 d then (0%Z, 1%nat, s2) else span_digits 0 0 s1 in
        let frac := match_frac s3 in
        let '(fv, fn, s4) := default (0%Z, 0%nat, s3) frac in
        let exp := match_exp s4 in
        let '(ev, s5) := default (0%Z, s4) exp in
        match frac, exp with
        | None, None => Some (PInt (if neg then (- int)%Z else int), s5)
        | _, _ =>
            Some (PFloat (PyFloat.of_decimal neg (int * 10 ^ Z.of_nat fn + fv)
                                             (ev - Z.of_nat fn)), s5)
        end
      else None
  | "" => None
  end.

(** [s.startswith(word)]: what follows [word] *)
Definition after (word s : string) : option string :=
  if String.prefix word s
  then Some (String.substring (String.length word)
                              (String.length s - String.length word) s)
  else None.

Fixpoint scan_once (fuel : nat) (s : string) : option (pyval * string) :=
  match fuel with
  | O => None
  | S fuel' =>
      match s with
      | "" => None
      | String c rest =>
          if is_char 34 c then '(t, r) ← scanstring rest; Some (PStr t, r)
          else if is_char 123 c then
            match skip_ws rest with
            | String c' r =>
                if is_char 125 c' then Some (PDict [], r)
                else parse_members fuel' (String c' r) []
            | "" => None
            end
          else if is_char 91 c then
            match skip_ws rest with
            | String c' r =>
                if is_char 93 c' then Some (PList [], r)
                else parse_elements fuel' (String c' r) []
            | "" => None
            end
          else
            match after "null" s, after "true" s, after "false" s with
            | Some r, _, _ => Some (PNone, r)
            | _, Some r, _ => Some (PBool true, r)
            | _, _, Some r => Some (PBool false, r)
            | _, _, _ =>
                match match_number s with
                | Some res => Some res
                | None =>
                    match after "NaN" s, after "Infinity" s, after "-Infinity" s with
                    | Some r, _, _ => Some (PFloat S754_nan, r)
                    | _, Some r, _ => Some (PFloat (S754_infinity false), r)
                    | _, _, Some r => Some (PFloat (S754_infinity true), r)
                    | _, _, _ => None
                    end
                end
            end
      end
  end

(** [JSONObject], from the opening quote of a key; a repeated key keeps
    its first place and takes the last value, as [dict(pairs)] does *)
with parse_members (fuel : nat) (s : string) (acc : list (string * pyval))
  : option (pyval * string) :=
  match fuel with
  | O => None
  | S fuel' =>
      match s with
      | String c s1 =>
          if is_char 34 c then
            '(key, s2) ← scanstring s1;
            match skip_ws s2 with
            | String c2 s3 =>
                if is_char 58 c2 then
                  '(v, s4) ← scan_once fuel' (skip_ws s3);
                  let acc' := Py.assoc_set key v acc in
                  match skip_ws s4 with
                  | String c5 s5 =>
                      if is_char 125 c5 then Some (PDict acc', s5)
                      else if is_char 44 c5 then parse_members fuel' (skip_ws s5) acc'
                      else None
                  | "" => None
                  end
                else None
            | "" => None
            end
          else None
      | "" => None
      end
  end

(** [JSONArray], from the first character of an element *)
with parse_elements (fuel : nat) (s : string) (acc : list pyval)
  : option (pyval * string) :=
  match fuel with
  | O => None
  | S fuel' =>
      '(v, s1) ← scan_once fuel' s;
      let acc' := (acc ++ [v])%list in
      match skip_ws s1 with
      | String c s2 =>
          if is_char 93 c then Some (PList acc', s2)
          else if is_char 44 c then parse_elements fuel' (skip_ws s2) acc'
          else None
      | "" => None
      end
  end.

Definition loads (s : string) : option pyval :=
  '(v, rest) ← scan_once (S (String.length s)) (skip_ws s);
  match skip_ws rest with
  | "" => Some v
  | _ => None
  end.

End Json.

(* ===================================================================== *)
(** ** The effects of the script                                          *)
(* ===================================================================== *)

(** [datetime.now()] *)
Record datetime : Type := {
  year : nat; month : nat; day : nat;
  hour : nat; minute : nat; second : nat
}.

(** [t.strftime("%Y%m%d_%H%M%S")]: the year on four digits (the years
    [datetime.now()] returns have four), the other fields on two. *)
Definition strftime_Ymd_HMS (t : datetime) : string :=
  PyStr.zfill 4 (year t) ++ PyStr.zfill 2 (month t) ++ PyStr.zfill 2 (day t)
  ++ "_"
  ++ PyStr.zfill 2 (hour t) ++ PyStr.zfill 2 (minute t) ++ PyStr.zfill 2 (second t).

(** An [OSError]: its [errno] and, when [open] raised it, the name of the
    file it was opening. *)
Inductive exn : Type :=
| OSError (errno : Z) (filename : option string).

(** What the file system does to one [with open(name, 'w') as f: ...]:
    [open] raises, or a write raises after [written] bytes reached the
    file. *)
Inductive fault : Type :=
| OpenFails (errno : Z)
| WriteFails (errno : Z) (written : nat).

(** All the script reads from and writes to its environment. *)
Record World : Type := {
  w_entropy : nat -> string;        (* the strings uuid4 will return *)
  w_drawn : nat;                    (* how many it has returned *)
  w_clock : datetime;               (* the local time *)
  w_faults : string -> option fault;(* the files that cannot be written *)
  w_files : gmap string string;     (* the files of the working directory *)
  w_stdout : list string            (* the lines printed *)
}.

(** A computation may raise, and threads the world. *)
Definition M (A : Type) : Type := World -> (exn + A) * World.

#[global] Instance M_ret : MRet M := fun A (a : A) w => (inr a, w).

#[global] Instance M_bind : MBind M := fun A B (f : A -> M B) (m : M A) w =>
  match m w with
  | (inl e, w') => (inl e, w')
  | (inr a, w') => f a w'
  end.

Definition raise {A : Type} (e : exn) : M A := fun w => (inl e, w).

(** The world after one more identifier was drawn. *)
Definition drew (w : World) : World :=
  {| w_entropy := w_entropy w; w_drawn := S (w_drawn w); w_clock := w_clock w;
     w_faults := w_faults w; w_files := w_files w; w_stdout := w_stdout w |}.

(** [str(uuid.uuid4())] *)
Definition uuid4 : M string := fun w => (inr (w_entropy w (w_drawn w)), drew w).

(** [datetime.now()] *)
Definition datetime_now : M datetime := fun w => (inr (w_clock w), w).

(** [print(line)] *)
Definition print (line : string) : M unit := fun w =>
  (inr tt,
   {| w_entropy := w_entropy w; w_drawn := w_drawn w; w_clock := w_clock w;
      w_faults := w_faults w; w_files := w_files w;
      w_stdout := (w_stdout w ++ [line])%list |}).

Definition with_files (fs : gmap string string) (w : World) : World :=
  {| w_entropy := w_entropy w; w_drawn := w_drawn w; w_clock := w_clock w;
     w_faults := w_faults w; w_files := fs; w_stdout := w_stdout w |}.

(** [with open(name, 'w', encoding='utf-8') as f: f.write(text)]: the file
    is created or truncated by [open], and closed on every exit path. *)
Definition write_file (name text : string) : M unit := fun w =>
  match w_faults w name with
  | None => (inr tt, with_files (<[name := text]> (w_files w)) w)
  | Some (OpenFails errno) => (inl (OSError errno (Some name)), w)
  | Some (WriteFails errno written) =>
      (inl (OSError errno None),
       with_files (<[name := String.substring 0 written text]> (w_files w)) w)
  end.

(** [for x in xs: body(x)] *)
Fixpoint for_each {A : Type} (xs : list A) (body : A -> M unit) : M unit :=
  match xs with
  | [] => mret tt
  | x :: xs' => body x ;; for_each xs' body
  end.

(* ===================================================================== *)
(** ** script.py                                                          *)
(* ===================================================================== *)

Import PyStr.

(** Genera un UUID único para Postman *)
Definition generate_uuid : M string := uuid4.

(** Crea la carpeta de autenticación *)
Definition create_auth_folder : pyval :=
  PDict [
    ("name", PStr "🔐 Authentication");
    ("item", PList [
      PDict [
        ("name", PStr "Register User");
        ("request", PDict [
          ("method", PStr "POST");
          ("header", PList [
            PDict [
              ("key", PStr "Content-Type");
              ("value", PStr "application/json")]]);
          ("body", PDict [
            ("mode", PStr "raw");
            ("raw", PStr (Json.dumps (PDict [
                ("email", PStr "user@example.com");
                ("pass", PStr "password123")])
              (Some 2%nat) true))]);
          ("url", PDict [
            ("raw", PStr "{{base_url}}/api/users/register");
            ("host", PList [PStr "{{base_url}}"]);
            ("path", PList [PStr "api"; PStr "users"; PStr "register"])]);
          ("description", PStr "Registra un nuevo usuario en el sistema")]);
        ("response", PList []);
        ("event", PList [
          PDict [
            ("listen", PStr "test");
            ("script", PDict [
              ("exec", PList [
                PStr "if (pm.response.code === 200) {";
                PStr "    const response = pm.response.json();";
                PStr "    pm.test('User registered successfully', function() {";
                PStr "        pm.expect(response).to.have.property('id');";
                PStr "        pm.expect(response).to.have.property('email');";
                PStr "    });";
                PStr "}"])])]])];
      PDict [
        ("name", PStr "Login User");
        ("request", PDict [
          ("method", PStr "POST");
          ("header", PList [
            PDict [
              ("key", PStr "Content-Type");
              ("value", PStr "application/json")]]);
          ("body", PDict [
            ("mode", PStr "raw");
            ("raw", PStr (Json.dumps (PDict [
                ("email", PStr "user@example.com");
                ("pass", PStr "password123")])
              (Some 2%nat) true))]);
          ("url", PDict [
            ("raw", PStr "{{base_url}}/api/users/login");
            ("host", PList [PStr "{{base_url}}"]);
            ("path", PList [PStr "api"; PStr "users"; PStr "login"])]);
          ("description", PStr "Autentica un usuario y obtiene el token JWT")]);
        ("response", PList []);
        ("event", PList [
          PDict [
            ("listen", PStr "test");
            ("script", PDict [
              ("exec", PList [
                PStr "if (pm.response.code === 200) {";
                PStr "    const response = pm.response.json();";
                PStr "    pm.test('Login successful', function() {";
                PStr "        pm.expect(response).to.have.property('token');";
                PStr "    });";
                PStr "    // Guardar token para otras requests";
                PStr "    pm.collectionVariables.set('auth_token', response.token);";
                PStr "}"])])]])]])].

(** Crea la carpeta de componentes *)
Definition create_components_folder : pyval :=
  PDict [
    ("name", PStr "🧩 Components");
    ("item", PList [
      PDict [
        ("name", PStr "Get All Components");
        ("request", PDict [
          ("method", PStr "GET");
          ("header", PList []);
          ("url", PDict [
            ("raw", PStr "{{base_url}}/api/components");
            ("host", PList [PStr "{{base_url}}"]);
            ("path", PList [PStr "api"; PStr "components"])]);
          ("description", PStr "Obtiene la lista de todos los componentes disponibles")]);
        ("response", PList [])];
      PDict [
        ("name", PStr "Get Components by Type");
        ("request", PDict [
          ("method", PStr "GET");
          ("header", PList []);
          ("url", PDict [
            ("raw", PStr "{{base_url}}/api/components?type=button");
            ("host", PList [PStr "{{base_url}}"]);
            ("path", PList [PStr "api"; PStr "components"]);
            ("query", PList [
              PDict [
                ("key", PStr "type");
                ("value", PStr "button");
                ("description", PStr "Filtrar por tipo: button, card, modal, navigation, form, layout, animation, other")]])]);
          ("description", PStr "Filtra componentes por tipo específico")]);
        ("response", PList [])];
      PDict [
        ("name", PStr "Get Components by Type (Path)");
        ("request", PDict [
          ("method", PStr "GET");
          ("header", PList []);
          ("url", PDict [
            ("raw", PStr "{{base_url}}/api/components/type/button");
            ("host", PList [PStr "{{base_url}}"]);
            ("path", PList [PStr "api"; PStr "components"; PStr "type"; PStr "button"])]);
          ("description", PStr "Obtiene componentes de un tipo específico usando parámetro de ruta")]);
        ("response", PList [])];
      PDict [
        ("name", PStr "Create Component");
        ("request", PDict [
          ("auth", PDict [
            ("type", PStr "noauth")]);
          ("method", PStr "POST");
          ("header", PList [
            PDict [
              ("key", PStr "Content-Type");
              ("value", PStr "application/json")];
            PDict [
              ("key", PStr "token");
              ("value", PStr "{{auth_token}}")]]);
          ("body", PDict [
            ("mode", PStr "raw");
            ("raw", PStr (Json.dumps (PDict [
                ("id", PStr "custom-button-1");
                ("name", PStr "Animated Button");
                ("type", PStr "button");
                ("jsxCode", PStr ("const AnimatedButton = ({ children, onClick }) => {" ++ nl
                   ++ "  return (" ++ nl
                   ++ "    <button" ++ nl
                   ++ "      className=" ++ dq ++ "animated-btn" ++ dq ++ nl
                   ++ "      onClick={onClick}" ++ nl
                   ++ "    >" ++ nl
                   ++ "      {children}" ++ nl
                   ++ "    </button>" ++ nl
                   ++ "  );" ++ nl
                   ++ "};" ++ nl
                   ++ nl ++ "export default AnimatedButton;"));
                ("animationCode", PStr (".animated-btn {" ++ nl
                   ++ "  background: linear-gradient(45deg, #667eea, #764ba2);" ++ nl
                   ++ "  border: none;" ++ nl
                   ++ "  padding: 12px 24px;" ++ nl
                   ++ "  border-radius: 8px;" ++ nl
                   ++ "  color: white;" ++ nl
                   ++ "  cursor: pointer;" ++ nl
                   ++ "  transition: all 0.3s ease;" ++ nl
                   ++ "}" ++ nl
                   ++ nl ++ ".animated-btn:hover {" ++ nl
                   ++ "  transform: translateY(-2px);" ++ nl
                   ++ "  box-shadow: 0 4px 20px rgba(0,0,0,0.3);" ++ nl
                   ++ "}"))])
              (Some 2%nat) true))]);
          ("url", PDict [
            ("raw", PStr "{{base_url}}/api/components");
            ("host", PList [PStr "{{base_url}}"]);
            ("path", PList [PStr "api"; PStr "components"])]);
          ("description", PStr "Crea un nuevo componente (requiere autenticación)")]);
        ("response", PList [])];
      PDict [
        ("name", PStr "Get Specific Component");
        ("request", PDict [
          ("auth", PDict [
            ("type", PStr "noauth")]);
          ("method", PStr "GET");
          ("header", PList [
            PDict [
              ("key", PStr "token");
              ("value", PStr "{{auth_token}}")]]);
          ("url", PDict [
            ("raw", PStr "{{base_url}}/api/components/custom-button-1");
            ("host", PList [PStr "{{base_url}}"]);
            ("path", PList [PStr "api"; PStr "components"; PStr "custom-button-1"])]);
          ("description", PStr "Obtiene detalles completos de un componente específico (requiere autenticación y posible pago)")]);
        ("response", PList [])];
      PDict [
        ("name", PStr "Get User Access Info");
        ("request", PDict [
          ("auth", PDict [
            ("type", PStr "noauth")]);
          ("method", PStr "GET");
          ("header", PList [
            PDict [
              ("key", PStr "token");
              ("value", PStr "{{auth_token}}")]]);
          ("url", PDict [
            ("raw", PStr "{{base_url}}/api/components/user/access-info");
            ("host", PList [PStr "{{base_url}}"]);
            ("path", PList [PStr "api"; PStr "components"; PStr "user"; PStr "access-info"])]);
          ("description", PStr "Obtiene información sobre el acceso del usuario a componentes")]);
        ("response", PList [])]])].

(** Crea la carpeta de pagos *)
Definition create_payments_folder : pyval :=
  PDict [
    ("name", PStr "💳 Payments");
    ("item", PList [
      PDict [
        ("name", PStr "Get Pricing Info");
        ("request", PDict [
          ("method", PStr "GET");
          ("header", PList []);
          ("url", PDict [
            ("raw", PStr "{{base_url}}/api/payment/pricing-info");
            ("host", PList [PStr "{{base_url}}"]);
            ("path", PList [PStr "api"; PStr "payment"; PStr "pricing-info"])]);
          ("description", PStr "Obtiene información de precios y beneficios premium")]);
        ("response", PList [])];
      PDict [
        ("name", PStr "Create Component Donation Order");
        ("request", PDict [
          ("auth", PDict [
            ("type", PStr "noauth")]);
          ("method", PStr "POST");
          ("header", PList [
            PDict [
              ("key", PStr "Content-Type");
              ("value", PStr "application/json")];
            PDict [
              ("key", PStr "token");
              ("value", PStr "{{auth_token}}")]]);
          ("body", PDict [
            ("mode", PStr "raw");
            ("raw", PStr (Json.dumps (PDict [
                ("amount", PFloat (PyFloat.of_decimal false 2550 (-2)));
                ("componentId", PStr "custom-button-1");
                ("isPremiumUpgrade", PBool false)])
              (Some 2%nat) true))]);
          ("url", PDict [
            ("raw", PStr "{{base_url}}/api/payment/create-order");
            ("host", PList [PStr "{{base_url}}"]);
            ("path", PList [PStr "api"; PStr "payment"; PStr "create-order"])]);
          ("description", PStr "Crea una orden de PayPal para donar por un componente específico")]);
        ("response", PList [])];
      PDict [
        ("name", PStr "Create Premium Upgrade Order");
        ("request", PDict [
          ("auth", PDict [
            ("type", PStr "noauth")]);
          ("method", PStr "POST");
          ("header", PList [
            PDict [
              ("key", PStr "Content-Type");
              ("value", PStr "application/json")];
            PDict [
              ("key", PStr "token");
              ("value", PStr "{{auth_token}}")]]);
          ("body", PDict [
            ("mode", PStr "raw");
            ("raw", PStr (Json.dumps (PDict [
                ("amount", PFloat (PyFloat.of_decimal false 5000 (-2)));
                ("isPremiumUpgrade", PBool true)])
              (Some 2%nat) true))]);
          ("url", PDict [
            ("raw", PStr "{{base_url}}/api/payment/create-order");
            ("host", PList [PStr "{{base_url}}"]);
            ("path", PList [PStr "api"; PStr "payment"; PStr "create-order"])]);
          ("description", PStr "Crea una orden de PayPal para upgrade a premium")]);
        ("response", PList [])];
      PDict [
        ("name", PStr "Capture Order (Webhook)");
        ("request", PDict [
          ("method", PStr "GET");
          ("header", PList []);
          ("url", PDict [
            ("raw", PStr "{{base_url}}/api/payment/capture-order?token=PAYPAL_TOKEN&componentId=custom-button-1&userId=USER_ID&amount=25.50&isPremiumUpgrade=false");
            ("host", PList [PStr "{{base_url}}"]);
            ("path", PList [PStr "api"; PStr "payment"; PStr "capture-order"]);
            ("query", PList [
              PDict [
                ("key", PStr "token");
                ("value", PStr "PAYPAL_TOKEN");
                ("description", PStr "Token de PayPal después de la aprobación")];
              PDict [
                ("key", PStr "componentId");
                ("value", PStr "custom-button-1");
                ("description", PStr "ID del componente (opcional para premium)")];
              PDict [
                ("key", PStr "userId");
                ("value", PStr "USER_ID");
                ("description", PStr "ID del usuario")];
              PDict [
                ("key", PStr "amount");
                ("value", PStr "25.50");
                ("description", PStr "Cantidad en MXN")];
              PDict [
                ("key", PStr "isPremiumUpgrade");
                ("value", PStr "false");
                ("description", PStr "Si es upgrade premium")]])]);
          ("description", PStr "Endpoint llamado por PayPal después de la aprobación del pago")]);
        ("response", PList [])];
      PDict [
        ("name", PStr "Cancel Order (Webhook)");
        ("request", PDict [
          ("method", PStr "GET");
          ("header", PList []);
          ("url", PDict [
            ("raw", PStr "{{base_url}}/api/payment/cancel-order");
            ("host", PList [PStr "{{base_url}}"]);
            ("path", PList [PStr "api"; PStr "payment"; PStr "cancel-order"])]);
          ("description", PStr "Endpoint llamado cuando el usuario cancela el pago en PayPal")]);
        ("response", PList [])]])].

(** Crea la carpeta de utilidades y testing *)
Definition create_utility_folder : pyval :=
  PDict [
    ("name", PStr "🛠️ Utilities & Testing");
    ("item", PList [
      PDict [
        ("name", PStr "API Documentation");
        ("request", PDict [
          ("method", PStr "GET");
          ("header", PList []);
          ("url", PDict [
            ("raw", PStr "{{base_url}}/api-docs");
            ("host", PList [PStr "{{base_url}}"]);
            ("path", PList [PStr "api-docs"])]);
          ("description", PStr "Accede a la documentación Swagger de la API")]);
        ("response", PList [])];
      PDict [
        ("name", PStr "Health Check");
        ("request", PDict [
          ("method", PStr "GET");
          ("header", PList []);
          ("url", PDict [
            ("raw", PStr "{{base_url}}/");
            ("host", PList [PStr "{{base_url}}"]);
            ("path", PList [PStr ""])]);
          ("description", PStr "Verifica que el servidor esté funcionando")]);
        ("response", PList [])];
      PDict [
        ("name", PStr "Test Flow - Complete User Journey");
        ("request", PDict [
          ("method", PStr "GET");
          ("header", PList []);
          ("url", PDict [
            ("raw", PStr "{{base_url}}/api/components");
            ("host", PList [PStr "{{base_url}}"]);
            ("path", PList [PStr "api"; PStr "components"])]);
          ("description", PStr "Endpoint base para testing de flujo completo")]);
        ("response", PList []);
        ("event", PList [
          PDict [
            ("listen", PStr "prerequest");
            ("script", PDict [
              ("exec", PList [
                PStr "// Test Flow Script";
                PStr "console.log('=== COMPLETE USER JOURNEY TEST ===');";
                PStr "console.log('1. Register user');";
                PStr "console.log('2. Login user');";
                PStr "console.log('3. Get components');";
                PStr "console.log('4. Try to access premium component');";
                PStr "console.log('5. Create payment order');";
                PStr "console.log('6. Check user access after payment');";
                PStr "console.log('=====================================');"])])]])]])].

(** Crea la estructura base de la colección de Postman *)
Definition create_postman_collection : M pyval :=
  postman_id ← generate_uuid;
  let collection :=
    PDict [
      ("info", PDict [
        ("_postman_id", PStr postman_id);
        ("name", PStr "Component Store API");
        ("description", PStr "API completa para el Component Store - Sistema de componentes JSX con donaciones PayPal y acceso premium");
        ("schema", PStr "https://schema.getpostman.com/json/collection/v2.1.0/collection.json")]);
      ("item", PList []);
      ("variable", PList [
        PDict [
          ("key", PStr "base_url");
          ("value", PStr "http://localhost:3000");
          ("type", PStr "string")];
        PDict [
          ("key", PStr "auth_token");
          ("value", PStr "");
          ("type", PStr "string")]]);
      ("auth", PDict [
        ("type", PStr "bearer");
        ("bearer", PList [
          PDict [
            ("key", PStr "token");
            ("value", PStr "{{auth_token}}");
            ("type", PStr "string")]])])] in
  (* Agregar carpetas principales *)
  let collection :=
    Py.set "item" (PList [
        create_auth_folder;
        create_components_folder;
        create_payments_folder;
        create_utility_folder]) collection in
  mret collection.

(** Crea entornos de prueba para la colección *)
Definition create_test_environments : M pyval :=
  development_id ← generate_uuid;
  production_id ← generate_uuid;
  let environments :=
    PDict [
      ("development", PDict [
        ("id", PStr development_id);
        ("name", PStr "Development Environment");
        ("values", PList [
          PDict [
            ("key", PStr "base_url");
            ("value", PStr "http://localhost:3000");
            ("enabled", PBool true)];
          PDict [
            ("key", PStr "auth_token");
            ("value", PStr "");
            ("enabled", PBool true)];
          PDict [
            ("key", PStr "test_email");
            ("value", PStr "test@example.com");
            ("enabled", PBool true)];
          PDict [
            ("key", PStr "test_password");
            ("value", PStr "testpassword123");
            ("enabled", PBool true)]])]);
      ("production", PDict [
        ("id", PStr production_id);
        ("name", PStr "Production Environment");
        ("values", PList [
          PDict [
            ("key", PStr "base_url");
            ("value", PStr "https://your-production-url.com");
            ("enabled", PBool true)];
          PDict [
            ("key", PStr "auth_token");
            ("value", PStr "");
            ("enabled", PBool true)]])])] in
  mret environments.

(** Genera un README con instrucciones de uso *)
Definition generate_readme : string :=
  "
# Component Store API - Postman Collection

Esta colección de Postman contiene todas las requests necesarias para probar y documentar la API del Component Store.

## 🚀 Configuración Inicial

1. **Importar la colección**: Importa el archivo `component-store-api.postman_collection.json` en Postman
2. **Configurar variables**: 
   - `base_url`: URL base de tu API (por defecto: http://localhost:3000)
   - `auth_token`: Se establecerá automáticamente después del login

## 📁 Estructura de la Colección

### 🔐 Authentication
- **Register User**: Crear nuevo usuario
- **Login User**: Obtener token JWT (se guarda automáticamente)

### 🧩 Components  
- **Get All Components**: Lista todos los componentes
- **Get Components by Type**: Filtrar por tipo de componente
- **Create Component**: Crear nuevo componente (requiere auth)
- **Get Specific Component**: Ver detalles de componente (requiere auth/pago)
- **Get User Access Info**: Ver estado de acceso del usuario

### 💳 Payments
- **Get Pricing Info**: Información de precios y beneficios
- **Create Component Donation Order**: Pagar por componente específico
- **Create Premium Upgrade Order**: Upgrade a cuenta premium
- **Capture Order**: Webhook de PayPal (éxito)
- **Cancel Order**: Webhook de PayPal (cancelación)

### 🛠️ Utilities & Testing
- **API Documentation**: Acceso a Swagger UI
- **Health Check**: Verificar estado del servidor
- **Test Flow**: Scripts para testing automatizado

## 🔄 Flujo de Prueba Recomendado

1. **Registro y Login**:
   ```
   POST /api/users/register
   POST /api/users/login
   ```

2. **Explorar Componentes**:
   ```
   GET /api/components
   GET /api/components/user/access-info
   ```

3. **Intentar Acceso a Componente Premium**:
   ```
   GET /api/components/{component-id}
   ```

4. **Proceso de Pago**:
   ```
   POST /api/payment/create-order
   GET /api/payment/capture-order (simulado)
   ```

5. **Verificar Acceso Actualizado**:
   ```
   GET /api/components/user/access-info
   GET /api/components/{component-id}
   ```

## 🧪 Testing Automatizado

La colección incluye tests automáticos que:
- Verifican códigos de respuesta HTTP
- Validan estructura de respuestas JSON  
- Guardan tokens automáticamente
- Verifican flujos completos

## 🔧 Variables de Entorno

### Development
- `base_url`: http://localhost:3000
- `test_email`: test@example.com
- `test_password`: testpassword123

### Production  
- `base_url`: https://your-production-url.com

## 📝 Notas Importantes

- **Autenticación**: El token se guarda automáticamente después del login
- **PayPal Testing**: Usa el sandbox de PayPal para pruebas
- **Premium Access**: Se requieren $50 MXN para acceso premium
- **Free Access**: Limitado a 2 componentes gratuitos

## 🚨 Configuración de PayPal

Para testing completo, configura las variables de entorno:
```
PAYPAL_API_CLIENT=your_sandbox_client_id
PAYPAL_API_SECRET=your_sandbox_client_secret
PAYPAL_API_URL=https://api.sandbox.paypal.com
```

## 📊 Monitoreo y Analytics

Usa Postman Monitor para:
- Ejecutar tests automáticamente
- Monitorear uptime de la API
- Generar reportes de performance
- Alertas por fallos

---

**¿Necesitas ayuda?** Consulta la documentación Swagger en `/api-docs`
".

(** [environments.items()] *)
Definition items (v : pyval) : list (string * pyval) :=
  match v with
  | PDict d => d
  | _ => []
  end.

(** [json.dump(obj, f, indent=2, ensure_ascii=False)] inside
    [with open(filename, 'w', encoding='utf-8') as f] *)
Definition json_dump_to (filename : string) (obj : pyval) : M unit :=
  write_file filename (Json.dumps obj (Some 2%nat) false).

(** Función principal que genera todos los archivos *)
Definition main : M unit :=
  print "🚀 Generando colección de Postman para Component Store API...";;
  (* Generar colección principal *)
  collection ← create_postman_collection;
  (* Generar entornos *)
  environments ← create_test_environments;
  (* Generar README *)
  let readme := generate_readme in
  (* Guardar archivos *)
  now ← datetime_now;
  let timestamp := strftime_Ymd_HMS now in
  (* Archivo de colección *)
  let collection_filename :=
    "component-store-api_" ++ timestamp ++ ".postman_collection.json" in
  json_dump_to collection_filename collection;;
  (* Archivos de entornos *)
  for_each (items environments) (fun '(env_name, env_data) =>
    let env_filename :=
      "component-store-" ++ env_name ++ "_" ++ timestamp
      ++ ".postman_environment.json" in
    json_dump_to env_filename env_data);;
  (* Archivo README *)
  let readme_filename := "POSTMAN_README_" ++ timestamp ++ ".md" in
  write_file readme_filename readme;;
  print "✅ Archivos generados exitosamente:";;
  print ("   📄 Colección: " ++ collection_filename);;
  print ("   🌍 Entorno Development: component-store-development_" ++ timestamp
         ++ ".postman_environment.json");;
  print ("   🌍 Entorno Production: component-store-production_" ++ timestamp
         ++ ".postman_environment.json");;
  print ("   📖 README: " ++ readme_filename);;
  print "";;
  print "📥 **Instrucciones de importación:**";;
  print "1. Abre Postman";;
  print "2. Click en 'Import' ";;
  print "3. Arrastra los archivos .json generados";;
  print "4. Configura las variables de entorno según tus necesidades";;
  print "5. ¡Comienza a probar tu API!";;
  print "";;
  print "🔗 **Endpoints principales:**";;
  print "   • Registro: POST /api/users/register";;
  print "   • Login: POST /api/users/login";;
  print "   • Componentes: GET /api/components";;
  print "   • Pagos: POST /api/payment/create-order";;
  print "   • Documentación: GET /api-docs".

(** [if __name__ == "__main__": main()]: the interpreter ends the process
    with status 0 when [main] returns, and with status 1, after printing
    the traceback of the exception, when [main] raises. *)
Record outcome : Type := {
  exit_code : Z;
  traceback : option exn;
  final : World
}.

Definition run_script (w : World) : outcome :=
  match main w with
  | (inr _, w') => {| exit_code := 0; traceback := None; final := w' |}
  | (inl e, w') => {| exit_code := 1; traceback := Some e; final := w' |}
  end.

(* ===================================================================== *)
(** ** The parts of the documents                                         *)
(* ===================================================================== *)

(** The request descriptors of a folder: its ["item"] list. *)
Definition descriptors_of (folder : pyval) : list pyval :=
  Py.get_list "item" folder.

(** What the four folder builders return, and every request descriptor
    they produce. *)
Definition built_folders : list pyval :=
  [create_auth_folder; create_components_folder;
   create_payments_folder; create_utility_folder].

Definition all_descriptors : list pyval :=
  concat (map descriptors_of built_folders).

(** The request descriptors of a collection document. *)
Definition collection_descriptors (collection : pyval) : list pyval :=
  concat (map descriptors_of (Py.get_list "item" collection)).

Definition request_of (r : pyval) : option pyval := Py.get "request" r.

Definition url_of (r : pyval) : option pyval := request_of r ≫= Py.get "url".

(** [{{name}}]: how a document refers to the variable [name]. *)
Definition var_ref (name : string) : string := "{{" ++ name ++ "}}".

Definition base_url_placeholder : string := var_ref "base_url".

(** [key=value] of one declared query parameter *)
Definition query_pair (p : pyval) : option string :=
  k ← Py.get_str "key" p; v ← Py.get_str "value" p; Some (k ++ "=" ++ v).

(** The URL put together from the parts of a UrlSpec: the placeholder,
    ['/'] and the path segments joined by ['/'], and, when the UrlSpec has
    a ["query"], ['?'] and its [key=value] pairs joined by ['&']. *)
Definition url_from_parts (url : pyval) : option string :=
  segments ← Py.get "path" url;
  path ← mapM Py.str (Py.elems segments);
  let base := base_url_placeholder ++ "/" ++ join "/" path in
  match Py.get "query" url with
  | None => Some base
  | Some q =>
      pairs ← mapM query_pair (Py.elems q);
      Some (base ++ "?" ++ join "&" pairs)
  end.

(** Is there a header with this key and value / with this key? *)
Definition has_header (k v : string) (request : pyval) : bool :=
  existsb (fun h => bool_decide (Py.get_str "key" h = Some k)
                    && bool_decide (Py.get_str "value" h = Some v))
          (Py.get_list "header" request).

Definition has_header_key (k : string) (request : pyval) : bool :=
  existsb (fun h => bool_decide (Py.get_str "key" h = Some k))
          (Py.get_list "header" request).

(** The statements of the event scripts of a descriptor that run in the
    phase [listen] (["test"] is Postman's post-response phase). *)
Definition script_statements (listen : string) (r : pyval) : list string :=
  concat (map (fun ev =>
                 if bool_decide (Py.get_str "listen" ev = Some listen)
                 then omap Py.str
                        (default [] (Py.get_list "exec" <$> Py.get "script" ev))
                 else [])
              (Py.get_list "event" r)).

(** Does the statement store into the collection variable [name]? *)
Definition writes_variable (name stmt : string) : bool :=
  contains ("pm.collectionVariables.set('" ++ name ++ "',") stmt.

(** The keys of the variables of an environment document. *)
Definition variable_keys (env : pyval) : list string :=
  omap (Py.get_str "key") (Py.get_list "values" env).

Definition key_set (env : pyval) : gset string :=
  list_to_set (variable_keys env).

(** The names of the four artifacts of a run, in the order [main] writes
    them. *)
Definition collection_filename (w : World) : string :=
  "component-store-api_" ++ strftime_Ymd_HMS (w_clock w)
  ++ ".postman_collection.json".

Definition environment_filename (env_name : string) (w : World) : string :=
  "component-store-" ++ env_name ++ "_" ++ strftime_Ymd_HMS (w_clock w)
  ++ ".postman_environment.json".

Definition readme_filename (w : World) : string :=
  "POSTMAN_README_" ++ strftime_Ymd_HMS (w_clock w) ++ ".md".

Definition artifact_names (w : World) : list string :=
  [collection_filename w; environment_filename "development" w;
   environment_filename "production" w; readme_filename w].

(** A run on 3 November 2026 at 09:05:07 in an empty directory where
    every file can be written. *)
Definition sample_world : World :=
  {| w_entropy := fun n => "00000000-0000-4000-8000-00000000000" ++ pretty n;
     w_drawn := 0;
     w_clock := {| year := 2026; month := 11; day := 3;
                   hour := 9; minute := 5; second := 7 |};
     w_faults := fun _ => None;
     w_files := ∅;
     w_stdout := [] |}.

(** The same run when the collection file cannot be opened
    ([EACCES], permission denied). *)
Definition unwritable_collection_world : World :=
  {| w_entropy := w_entropy sample_world;
     w_drawn := 0;
     w_clock := w_clock sample_world;
     w_faults := fun name =>
       if String.eqb name (collection_filename sample_world)
       then Some (OpenFails 13) else None;
     w_files := ∅;
     w_stdout := [] |}.

(* --------------------------------------------------------------------- *)
(** *** Descriptors, worlds and texts the properties name                 *)
(* --------------------------------------------------------------------- *)

(** The descriptor with the query parameters: "Capture Order (Webhook)". *)
Definition capture_order : pyval := nth 11 all_descriptors PNone.

(** The "Health Check" descriptor: a GET without a [token] header. *)
Definition health_check : pyval := nth 14 all_descriptors PNone.

(** The "Create Component" descriptor: a POST with a JSON body. *)
Definition create_component : pyval := nth 5 all_descriptors PNone.

(** The "Get Specific Component" descriptor: a GET with an auth override. *)
Definition get_specific_component : pyval := nth 6 all_descriptors PNone.

(** The literal input of the "Create Component Donation Order" body:
    [{"amount": 25.50, "componentId": "custom-button-1",
      "isPremiumUpgrade": false}]. *)
Definition donation_order_input : pyval :=
  PDict [("amount", PFloat (PyFloat.of_decimal false 2550 (-2)));
         ("componentId", PStr "custom-button-1");
         ("isPremiumUpgrade", PBool false)].

(** The exception a fault raises out of [with open(name, 'w') ...]: only
    a failure of [open] names the file. *)
Definition raised (f : fault) (name : string) : exn :=
  match f with
  | OpenFails errno => OSError errno (Some name)
  | WriteFails errno _ => OSError errno None
  end.

(** The same world with a file system that accepts every write. *)
Definition without_faults (w : World) : World :=
  {| w_entropy := w_entropy w; w_drawn := w_drawn w; w_clock := w_clock w;
     w_faults := fun _ => None; w_files := w_files w; w_stdout := w_stdout w |}.

(** The text of the collection file before and after the identifier. *)
Definition collection_head : string :=
  "{" ++ nl ++ "  " ++ dq ++ "info" ++ dq ++ ": {" ++ nl
  ++ "    " ++ dq ++ "_postman_id" ++ dq ++ ": " ++ dq.

Definition collection_tail : string :=
  match create_postman_collection sample_world with
  | (inr c, _) =>
      let text := Json.dumps c (Some 2%nat) false in
      let skip := (String.length collection_head
                   + String.length (Json.escape_bytes (w_entropy sample_world 0)))%nat in
      String.substring skip (String.length text - skip) text
  | (inl _, _) => ""
  end.

(** Every artifact of the run can be written. *)
Definition fault_free (w : World) : Prop :=
  forall name, In name (artifact_names w) -> w_faults w name = None.

(** A second run, a day later, with other identifiers. *)
Definition later_world : World :=
  {| w_entropy := fun n => "ffffffff-ffff-4fff-bfff-fffffffffff" ++ pretty n;
     w_drawn := 0;
     w_clock := {| year := 2026; month := 11; day := 4;
                   hour := 18; minute := 30; second := 0 |};
     w_faults := fun _ => None;
     w_files := ∅;
     w_stdout := [] |}.

(* --------------------------------------------------------------------- *)
(** *** Notions of the further properties                                 *)
(* --------------------------------------------------------------------- *)

(** The documents a run builds: the collection from the first identifier
    drawn, the environments from the next two. *)
Definition collection_in (w : World) : pyval :=
  match create_postman_collection w with
  | (inr c, _) => c
  | (inl _, _) => PNone
  end.

Definition environments_in (w : World) : pyval :=
  match create_test_environments (drew w) with
  | (inr envs, _) => envs
  | (inl _, _) => PNone
  end.

Definition environment_in (env_name : string) (w : World) : pyval :=
  default PNone (Py.get env_name (environments_in w)).

(** The artifacts of a run, each with the text [main] writes into it, in
    the order of the writes. *)
Definition artifacts (w : World) : list (string * string) :=
  [(collection_filename w, Json.dumps (collection_in w) (Some 2%nat) false);
   (environment_filename "development" w,
    Json.dumps (environment_in "development" w) (Some 2%nat) false);
   (environment_filename "production" w,
    Json.dumps (environment_in "production" w) (Some 2%nat) false);
   (readme_filename w, generate_readme)].

Definition write_artifact (a : string * string) : M unit :=
  write_file (fst a) (snd a).

(** The line [main] prints first, the labels in front of the four file
    names it announces, and everything it prints after the last write. *)
Definition banner : string :=
  "🚀 Generando colección de Postman para Component Store API...".

Definition report_labels : list string :=
  ["   📄 Colección: "; "   🌍 Entorno Development: ";
   "   🌍 Entorno Production: "; "   📖 README: "].

Definition announced_endpoints : list string :=
  ["   • Registro: POST /api/users/register";
   "   • Login: POST /api/users/login";
   "   • Componentes: GET /api/components";
   "   • Pagos: POST /api/payment/create-order";
   "   • Documentación: GET /api-docs"].

Definition success_report (w : World) : list string :=
  ["✅ Archivos generados exitosamente:";
   "   📄 Colección: " ++ collection_filename w;
   "   🌍 Entorno Development: " ++ environment_filename "development" w;
   "   🌍 Entorno Production: " ++ environment_filename "production" w;
   "   📖 README: " ++ readme_filename w;
   "";
   "📥 **Instrucciones de importación:**";
   "1. Abre Postman";
   "2. Click en 'Import' ";
   "3. Arrastra los archivos .json generados";
   "4. Configura las variables de entorno según tus necesidades";
   "5. ¡Comienza a probar tu API!";
   "";
   "🔗 **Endpoints principales:**"]
  ++ announced_endpoints.

(** The world in which [main] starts to write: the banner is printed and
    the three identifiers are drawn. *)
Definition started (w : World) : World :=
  {| w_entropy := w_entropy w; w_drawn := S (S (S (w_drawn w)));
     w_clock := w_clock w; w_faults := w_faults w; w_files := w_files w;
     w_stdout := w_stdout w ++ [banner] |}.

(** The world [w'] once the lines of the report are printed. *)
Definition reported (w w' : World) : World :=
  {| w_entropy := w_entropy w'; w_drawn := w_drawn w'; w_clock := w_clock w';
     w_faults := w_faults w'; w_files := w_files w';
     w_stdout := w_stdout w' ++ success_report w |}.

(** How the run ends when the writes ended with [r] in the world [w']. *)
Definition ended (w : World) (r : (exn + unit) * World) : outcome :=
  match r with
  | (inr _, w') => {| exit_code := 0; traceback := None; final := reported w w' |}
  | (inl e, w') => {| exit_code := 1; traceback := Some e; final := w' |}
  end.


(** The number a string of decimal digits writes. *)
Definition digits_value (s : string) : nat :=
  Z.to_nat (fst (fst (Json.span_digits 0 0 s))).

(** The dates on which [strftime] writes the year on four digits on every
    platform: years 1000 to 9999 (below 1000 the padding of [%Y] depends
    on the C library), and the ranges of the calendar and of the clock for
    the other fields. *)
Definition datetime_in_range (t : datetime) : Prop :=
  (1000 <= Z.of_nat (year t) <= 9999)%Z
  /\ (1 <= month t <= 12 /\ 1 <= day t <= 31
      /\ hour t <= 23 /\ minute t <= 59 /\ second t <= 59)%nat.

(** [s.partition(sep)] for a one-character separator: the text before the
    first [sep] and, when there is one, the text after it. *)
Fixpoint str_partition (sep : ascii) (s : string) : string * option string :=
  match s with
  | "" => ("", None)
  | String c s' =>
      if Ascii.eqb c sep then ("", Some s')
      else let '(before, after) := str_partition sep s' in (String c before, after)
  end.

(** [s.split(sep)] for a one-character separator. *)
Fixpoint str_split (sep : ascii) (s : string) : list string :=
  match s with
  | "" => [""]
  | String c s' =>
      if Ascii.eqb c sep then "" :: str_split sep s'
      else match str_split sep s' with
           | part :: parts => String c part :: parts
           | [] => [String c ""]
           end
  end.

(** The text before the first occurrence of [close], when there is one. *)
Fixpoint text_until (close : string) (s : string) : option string :=
  if String.prefix close s then Some ""
  else match s with
       | "" => None
       | String c s' => String c <$> text_until close s'
       end.

(** Every text found between an occurrence of [open] and the next
    [close]. *)
Fixpoint texts_between (open close : string) (s : string) : list string :=
  match s with
  | "" => []
  | String _ s' =>
      (if String.prefix open s
       then match text_until close
                    (String.substring (String.length open)
                                      (String.length s - String.length open) s) with
            | Some found => [found]
            | None => []
            end
       else [])
      ++ texts_between open close s'
  end.

(** The variables a text refers to as [{{name}}], and the collection
    variables a script statement stores into. *)
Definition template_refs (text : string) : list string :=
  texts_between "{{" "}}" text.

Definition stored_variables (stmt : string) : list string :=
  texts_between "pm.collectionVariables.set('" "'" stmt.

(** The text of a value as [main] writes it. *)
Definition descriptor_text (r : pyval) : string := Json.dumps r (Some 2%nat) false.

(** The keys of the variables a collection declares. *)
Definition declared_variables (collection : pyval) : list string :=
  omap (Py.get_str "key") (Py.get_list "variable" collection).

(** The value of the variable [k] in a list of variables. *)
Definition variable_value (k : string) (vars : list pyval) : option string :=
  head (omap (fun v => if bool_decide (Py.get_str "key" v = Some k)
                       then Py.get_str "value" v else None) vars).

(** Every script statement of a descriptor, whatever its phase. *)
Definition all_statements (r : pyval) : list string :=
  (script_statements "test" r ++ script_statements "prerequest" r)%list.

(** A declared query parameter as the pair of its key and value. *)
Definition query_item (p : pyval) : option (string * option string) :=
  k ← Py.get_str "key" p; v ← Py.get_str "value" p; Some (k, Some v).

(** [METHOD /path] of a descriptor: its method and its raw URL without the
    base-URL placeholder. *)
Definition endpoint_of (r : pyval) : option string :=
  request ← request_of r;
  method ← Py.get_str "method" request;
  raw ← Py.get "url" request ≫= Py.get_str "raw";
  if String.prefix base_url_placeholder raw
  then Some (method ++ " "
             ++ String.substring (String.length base_url_placeholder)
                  (String.length raw - String.length base_url_placeholder) raw)
  else None.

(** What [encode_basestring] writes for one byte. *)
Definition escape_byte (c : ascii) : string := Json.escape_bytes (String c "").

(** The "Login User" descriptor and the line that announces its endpoint. *)
Definition login_user : pyval := nth 1 all_descriptors PNone.

Definition login_line : string := "   • Login: POST /api/users/login".

(* ===================================================================== *)
(** ** Properties                                                         *)
(* ===================================================================== *)

(** *** The runtime model on known values *)

Example repr_of_25_50 : PyFloat.repr (PyFloat.of_decimal false 2550 (-2)) = "25.5".
Proof. vm_compute. reflexivity. Qed.

Example repr_of_50_00 : PyFloat.repr (PyFloat.of_decimal false 5000 (-2)) = "50.0".
Proof. vm_compute. reflexivity. Qed.

Example repr_of_a_tenth : PyFloat.repr (PyFloat.of_decimal false 1 (-1)) = "0.1".
Proof. vm_compute. reflexivity. Qed.

Example repr_of_a_third :
  PyFloat.repr (PyFloat.round_ratio false 1 3) = "0.3333333333333333".
Proof. vm_compute. reflexivity. Qed.

Example repr_with_exponent :
  PyFloat.repr (PyFloat.of_decimal false 1 16) = "1e+16"
  /\ PyFloat.repr (PyFloat.of_decimal false 15 (-6)) = "1.5e-05"
  /\ PyFloat.repr (PyFloat.of_decimal false 1 15) = "1000000000000000.0".
Proof. vm_compute. repeat split; reflexivity. Qed.

Example dumps_escapes :
  Json.dumps (PDict [("é", PStr ("a" ++ dq ++ nl ++ "\"))]) None true
  = "{" ++ dq ++ "\u00e9" ++ dq ++ ": " ++ dq ++ "a\" ++ dq ++ "\n\\" ++ dq ++ "}"
  /\ Json.dumps (PList [PStr "é"; PInt (-3); PNone; PList []; PDict []]) (Some 2%nat) false
     = join nl ["["; "  " ++ dq ++ "é" ++ dq ++ ","; "  -3,"; "  null,"; "  [],"; "  {}"; "]"].
Proof. vm_compute. split; reflexivity. Qed.

Example loads_rejects :
  Json.loads "[1,]" = None /\ Json.loads "01" = None /\ Json.loads "{ ,}" = None
  /\ Json.loads "1." = None /\ Json.loads "tru" = None /\ Json.loads "" = None.
Proof. vm_compute. repeat split; reflexivity. Qed.

Example loads_accepts :
  Json.loads " [1 , -0, true, null, 2.5e1 ] "
  = Some (PList [PInt 1; PInt 0; PBool true; PNone;
                 PFloat (PyFloat.of_decimal false 25 0)])
  /\ Json.loads ("{" ++ dq ++ "a" ++ dq ++ ": 1, " ++ dq ++ "b" ++ dq ++ ": 2, "
                 ++ dq ++ "a" ++ dq ++ ": 3}")
     = Some (PDict [("a", PInt 3); ("b", PInt 2)]).
Proof. vm_compute. split; reflexivity. Qed.

(** *** Lemmas on the model *)

(** A property of all the descriptors is checked on each of them. *)
Lemma all_descriptors_forall (P : pyval -> Prop) :
  Forall P all_descriptors -> forall r, In r all_descriptors -> P r.
Proof. intros H r Hr. exact (proj1 (List.Forall_forall P all_descriptors) H r Hr). Qed.

Ltac each_descriptor tac :=
  apply all_descriptors_forall;
  repeat (apply List.Forall_cons; [ tac | ]); apply List.Forall_nil.

(** [create_postman_collection] always returns: it draws one identifier
    and raises nothing.  Apart from the identifier, the document is the
    same in every world. *)
Lemma create_postman_collection_returns (w : World) :
  exists c,
    create_postman_collection w = (inr c, drew w)
    /\ (Py.get "info" c ≫= Py.get_str "_postman_id")
       = Some (w_entropy w (w_drawn w))
    /\ Py.keys c = ["info"; "item"; "variable"; "auth"]
    /\ Py.get "item" c = Some (PList built_folders)
    /\ Py.get "variable" c = Some (PList
         [PDict [("key", PStr "base_url");
                 ("value", PStr "http://localhost:3000");
                 ("type", PStr "string")];
          PDict [("key", PStr "auth_token");
                 ("value", PStr "");
                 ("type", PStr "string")]])
    /\ Py.get "auth" c = Some (PDict
         [("type", PStr "bearer");
          ("bearer", PList [PDict [("key", PStr "token");
                                   ("value", PStr "{{auth_token}}");
                                   ("type", PStr "string")]])]).
Proof.
  eexists. split; [reflexivity | ].
  repeat split; reflexivity.
Qed.

Lemma append_assoc (s1 s2 s3 : string) : (s1 ++ s2) ++ s3 = s1 ++ (s2 ++ s3).
Proof.
  induction s1 as [|c s1 IH]; [reflexivity | ].
  change (String c ((s1 ++ s2) ++ s3) = String c (s1 ++ (s2 ++ s3))).
  f_equal. exact IH.
Qed.

(** The four artifacts of a run have four different names. *)
Lemma artifact_names_distinct (w : World) : NoDup (artifact_names w).
Proof.
  unfold artifact_names, collection_filename, environment_filename,
    readme_filename.
  generalize (strftime_Ymd_HMS (w_clock w)) as ts. intros ts.
  repeat (apply NoDup_cons_2;
          [ rewrite ?not_elem_of_cons; repeat split;
            try (intros E; discriminate E); apply not_elem_of_nil | ]).
  apply NoDup_nil_2.
Qed.

(** Symbolic execution of the script in a world given field by field. *)
Tactic Notation "exec" :=
  cbv [run_script main json_dump_to write_file print mbind M_bind mret M_ret
       create_postman_collection create_test_environments generate_uuid uuid4
       datetime_now for_each items with_files drew without_faults raised
       w_faults w_entropy w_drawn w_clock w_files w_stdout
       exit_code traceback final
       collection_filename environment_filename readme_filename artifact_names
       Py.get Py.assoc Py.set Py.assoc_set String.eqb Ascii.eqb Bool.eqb].

Tactic Notation "exec" "in" hyp(H) :=
  cbv [run_script main json_dump_to write_file print mbind M_bind mret M_ret
       create_postman_collection create_test_environments generate_uuid uuid4
       datetime_now for_each items with_files drew without_faults raised
       w_faults w_entropy w_drawn w_clock w_files w_stdout
       exit_code traceback final
       collection_filename environment_filename readme_filename artifact_names
       Py.get Py.assoc Py.set Py.assoc_set String.eqb Ascii.eqb Bool.eqb] in H.

(** The serialised collection of any world is the same text around the
    (escaped) identifier drawn in that world. *)
Lemma collection_text (w : World) :
  exists c,
    create_postman_collection w = (inr c, drew w)
    /\ Json.dumps c (Some 2%nat) false
       = collection_head ++ Json.escape_bytes (w_entropy w (w_drawn w))
         ++ collection_tail.
Proof.
  destruct w as [ent dr clk flt fs out].
  eexists. split; [reflexivity | ].
  cbv [w_entropy w_drawn Py.set Py.assoc_set String.eqb Ascii.eqb Bool.eqb].
  generalize (ent dr) as id. intros id.
  unfold Json.dumps.
  set (folders := PList _).
  cbn [Json.iterencode map fst snd join].
  change (Json.encode_string false id) with (dq ++ Json.escape_bytes id ++ dq).
  rewrite !append_assoc.
  generalize (Json.escape_bytes id) as e. intros e.
  match goal with
  | |- ?L = _ =>
      match L with
      | context [e ++ ?T] =>
          assert (T = collection_tail) as -> by (vm_compute; reflexivity)
      end
  end.
  generalize (e ++ collection_tail) as rest. intros rest.
  vm_compute. reflexivity.
Qed.

Lemma length_append (s t : string) :
  String.length (s ++ t) = (String.length s + String.length t)%nat.
Proof.
  induction s as [|c s IH]; [reflexivity | ].
  change (S (String.length (s ++ t)) = S (String.length s + String.length t)).
  rewrite IH. reflexivity.
Qed.

Lemma append_inv_tail (s1 s2 t : string) : s1 ++ t = s2 ++ t -> s1 = s2.
Proof.
  revert s2. induction s1 as [|a s1 IH]; intros [|b s2] E.
  - reflexivity.
  - apply (f_equal String.length) in E.
    change (String.length t = S (String.length (s2 ++ t))) in E.
    rewrite length_append in E. lia.
  - apply (f_equal String.length) in E.
    change (S (String.length (s1 ++ t)) = String.length t) in E.
    rewrite length_append in E. lia.
  - change (String a (s1 ++ t) = String b (s2 ++ t)) in E.
    injection E as Ea Et. subst b. f_equal. apply IH. exact Et.
Qed.

(** Two runs name their collection file alike exactly when their
    timestamps agree. *)
Lemma collection_filename_inj (w1 w2 : World) :
  collection_filename w1 = collection_filename w2
  <-> strftime_Ymd_HMS (w_clock w1) = strftime_Ymd_HMS (w_clock w2).
Proof.
  unfold collection_filename. split; intros E.
  - apply (inj (String.append "component-store-api_")) in E.
    exact (append_inv_tail _ _ _ E).
  - rewrite E. reflexivity.
Qed.

Lemma get_first (k : string) (v : pyval) (d : list (string * pyval)) :
  Py.get k (PDict ((k, v) :: d)) = Some v.
Proof. cbn [Py.get Py.assoc]. rewrite String.eqb_refl. reflexivity. Qed.

(** A run without faults builds the collection and the two environments,
    writes the four artifacts and ends with status 0. *)
Lemma fault_free_run (w : World) :
  fault_free w ->
  exists c envs development production,
    create_postman_collection w = (inr c, drew w)
    /\ create_test_environments (drew w) = (inr envs, drew (drew (drew w)))
    /\ Py.get "development" envs = Some development
    /\ Py.get "production" envs = Some production
    /\ exit_code (run_script w) = 0%Z
    /\ traceback (run_script w) = None
    /\ w_files (final (run_script w)) =
         <[readme_filename w := generate_readme]>
           (<[environment_filename "production" w :=
                Json.dumps production (Some 2%nat) false]>
              (<[environment_filename "development" w :=
                   Json.dumps development (Some 2%nat) false]>
                 (<[collection_filename w := Json.dumps c (Some 2%nat) false]>
                    (w_files w)))).
Proof.
  intros H.
  pose proof (H _ (or_introl eq_refl)) as H1.
  pose proof (H _ (or_intror (or_introl eq_refl))) as H2.
  pose proof (H _ (or_intror (or_intror (or_introl eq_refl)))) as H3.
  pose proof (H _ (or_intror (or_intror (or_intror (or_introl eq_refl))))) as H4.
  clear H. destruct w as [ent dr clk flt fs out].
  exec in H1. exec in H2. exec in H3. exec in H4.
  do 4 eexists.
  do 4 (split; [reflexivity | ]).
  exec. rewrite H1. exec. rewrite H2. exec. rewrite H3. exec. rewrite H4. exec.
  repeat split; reflexivity.
Qed.

Ltac lookup_through_inserts :=
  repeat first [ rewrite lookup_insert_eq
               | rewrite lookup_insert_ne by (intros E; discriminate E) ];
  try reflexivity; try (eexists; reflexivity).

Ltac nth_artifact j H :=
  destruct j as [|[|[|[|j]]]]; try lia; try discriminate H;
  cbn [lookup list_lookup] in H; injection H as <-.

(** *** The generated documents *)

(** C1. For every request descriptor the four folder builders produce,
    the [raw] string of its UrlSpec is, byte for byte, the base-URL
    placeholder [{{base_url}}], then ['/'] and the path segments joined by
    ['/'], then, when the UrlSpec declares query parameters, ['?'] and the
    [key=value] pairs of those parameters joined by ['&'] in their declared
    order. *)
Theorem raw_url_matches_its_parts :
  forall r, In r all_descriptors ->
    exists url raw,
      url_of r = Some url
      /\ Py.get_str "raw" url = Some raw
      /\ url_from_parts url = Some raw
      /\ base_url_placeholder = "{{base_url}}".
Proof.
  each_descriptor ltac:(do 2 eexists; vm_compute; repeat split; reflexivity).
Qed.

Lemma raw_url_matches_its_parts_witness :
  In capture_order all_descriptors
  /\ exists url raw,
       url_of capture_order = Some url
       /\ Py.get_str "raw" url = Some raw
       /\ url_from_parts url = Some raw
       /\ base_url_placeholder = "{{base_url}}".
Proof.
  assert (H : In capture_order all_descriptors).
  { apply nth_In. vm_compute. repeat constructor. }
  split; [exact H | exact (raw_url_matches_its_parts capture_order H)].
Defined.

(** C2. The ["item"] sequence of the collection document consists of
    exactly the four folders, in the order Authentication, Components,
    Payments, Utilities; their request descriptors partition the full set
    of descriptors: none appears twice (so none is in two folders) and
    none is omitted. *)
Theorem folders_partition_descriptors :
  forall w : World,
    exists c w',
      create_postman_collection w = (inr c, w')
      /\ Py.get_list "item" c =
           [create_auth_folder; create_components_folder;
            create_payments_folder; create_utility_folder]
      /\ map (Py.get_str "name") (Py.get_list "item" c) =
           [Some "🔐 Authentication"; Some "🧩 Components";
            Some "💳 Payments"; Some "🛠️ Utilities & Testing"]
      /\ NoDup (collection_descriptors c)
      /\ (forall r, In r all_descriptors <-> In r (collection_descriptors c))
      /\ length (collection_descriptors c) = 16%nat.
Proof.
  intros w.
  destruct (create_postman_collection_returns w) as (c & Hc & _ & _ & Hitem & _).
  exists c, (drew w). split; [exact Hc | ].
  assert (Hl : Py.get_list "item" c = built_folders).
  { unfold Py.get_list. rewrite Hitem. reflexivity. }
  assert (Hd : collection_descriptors c = all_descriptors).
  { unfold collection_descriptors. rewrite Hl. reflexivity. }
  rewrite Hl, Hd.
  split; [reflexivity | ].
  split; [vm_compute; reflexivity | ].
  split.
  - apply (NoDup_fmap_1 (Py.get_str "name")).
    apply (bool_decide_unpack _). vm_compute. reflexivity.
  - split; [tauto | vm_compute; reflexivity].
Qed.

(** C3. Any two runs of the generator build collection documents with the
    same ["item"] and ["variable"] content; the documents differ at most
    in [info._postman_id], the collection files at most in that identifier
    and in their timestamped name, and what is serialised of the other
    parts is byte-identical (with the same timestamp the files also have
    the same name). *)
Theorem runs_differ_only_in_identifier :
  forall w1 w2 : World,
    exists c1 c2 head tail,
      fst (create_postman_collection w1) = inr c1
      /\ fst (create_postman_collection w2) = inr c2
      /\ Py.get "item" c1 = Py.get "item" c2
      /\ Py.get "variable" c1 = Py.get "variable" c2
      /\ is_Some (Py.get "item" c1) /\ is_Some (Py.get "variable" c1)
      /\ (forall k, k <> "info" -> Py.get k c1 = Py.get k c2)
      /\ (forall k, k <> "_postman_id" ->
            Py.get "info" c1 ≫= Py.get k = Py.get "info" c2 ≫= Py.get k)
      /\ Json.dumps c1 (Some 2%nat) false
         = head ++ Json.escape_bytes (w_entropy w1 (w_drawn w1)) ++ tail
      /\ Json.dumps c2 (Some 2%nat) false
         = head ++ Json.escape_bytes (w_entropy w2 (w_drawn w2)) ++ tail
      /\ (fault_free w1 ->
            w_files (final (run_script w1)) !! collection_filename w1
            = Some (Json.dumps c1 (Some 2%nat) false))
      /\ (fault_free w2 ->
            w_files (final (run_script w2)) !! collection_filename w2
            = Some (Json.dumps c2 (Some 2%nat) false))
      /\ (collection_filename w1 = collection_filename w2
          <-> strftime_Ymd_HMS (w_clock w1) = strftime_Ymd_HMS (w_clock w2)).
Proof.
  intros w1 w2.
  destruct (collection_text w1) as (c1 & Hc1 & Ht1).
  destruct (collection_text w2) as (c2 & Hc2 & Ht2).
  destruct (create_postman_collection_returns w1) as (c1' & Hc1' & _ & _ & Hi1 & Hv1 & _).
  destruct (create_postman_collection_returns w2) as (c2' & Hc2' & _ & _ & Hi2 & Hv2 & _).
  rewrite Hc1 in Hc1'. injection Hc1' as <-.
  rewrite Hc2 in Hc2'. injection Hc2' as <-.
  assert (written : forall w c, create_postman_collection w = (inr c, drew w) ->
            fault_free w ->
            w_files (final (run_script w)) !! collection_filename w
            = Some (Json.dumps c (Some 2%nat) false)).
  { intros w c Hc F.
    destruct (fault_free_run w F) as (c' & e & d & p & Hc' & _ & _ & _ & _ & _ & Hf).
    rewrite Hc in Hc'. injection Hc' as <-. rewrite Hf.
    pose proof (artifact_names_distinct w) as N. unfold artifact_names in N.
    apply NoDup_cons in N as [N _]. rewrite !not_elem_of_cons in N.
    destruct N as (? & ? & ? & _).
    do 3 (rewrite lookup_insert_ne by congruence). apply lookup_insert_eq. }
  exists c1, c2, collection_head, collection_tail.
  rewrite Hc1, Hc2, Hi1, Hi2, Hv1, Hv2.
  do 2 (split; [reflexivity | ]).
  do 2 (split; [reflexivity | ]).
  do 2 (split; [eexists; reflexivity | ]).
  split.
  { clear -Hc1 Hc2. intros k Hk. destruct w1, w2.
    cbv [create_postman_collection generate_uuid uuid4 mbind M_bind mret M_ret
         Py.set Py.assoc_set String.eqb Ascii.eqb Bool.eqb] in Hc1, Hc2.
    injection Hc1 as <-. injection Hc2 as <-.
    cbn [Py.get Py.assoc].
    destruct (String.eqb_spec k "info"); [contradiction | reflexivity]. }
  split.
  { clear -Hc1 Hc2. intros k Hk. destruct w1, w2.
    cbv [create_postman_collection generate_uuid uuid4 mbind M_bind mret M_ret
         Py.set Py.assoc_set String.eqb Ascii.eqb Bool.eqb] in Hc1, Hc2.
    injection Hc1 as <-. injection Hc2 as <-.
    rewrite !get_first. cbn [mbind option_bind Py.get Py.assoc].
    destruct (String.eqb_spec k "_postman_id"); [contradiction | reflexivity]. }
  split; [exact Ht1 | ].
  split; [exact Ht2 | ].
  split; [exact (written w1 c1 Hc1) | ].
  split; [exact (written w2 c2 Hc2) | ].
  apply collection_filename_inj.
Qed.

Lemma runs_differ_only_in_identifier_witness :
  fault_free sample_world /\ fault_free later_world
  /\ exists c1 c2,
       fst (create_postman_collection sample_world) = inr c1
       /\ fst (create_postman_collection later_world) = inr c2
       /\ Py.get "item" c1 = Py.get "item" c2
       /\ Py.get "variable" c1 = Py.get "variable" c2
       /\ w_files (final (run_script sample_world)) !! collection_filename sample_world
          = Some (Json.dumps c1 (Some 2%nat) false)
       /\ w_files (final (run_script later_world)) !! collection_filename later_world
          = Some (Json.dumps c2 (Some 2%nat) false).
Proof.
  assert (F1 : fault_free sample_world) by (intros name _; reflexivity).
  assert (F2 : fault_free later_world) by (intros name _; reflexivity).
  split; [exact F1 | ]. split; [exact F2 | ].
  destruct (runs_differ_only_in_identifier sample_world later_world)
    as (c1 & c2 & _ & _ & H1 & H2 & Hi & Hv & _ & _ & _ & _ & _ & _ & W1 & W2 & _).
  exists c1, c2.
  exact (conj H1 (conj H2 (conj Hi (conj Hv (conj (W1 F1) (W2 F2)))))).
Defined.

(** C4. In every run the variable keys of the production environment are
    a strict subset of those of the development environment and contain
    neither [test_email] nor [test_password]; development carries exactly
    [base_url], [auth_token], [test_email], [test_password] and production
    exactly [base_url], [auth_token], so neither environment is empty. *)
Theorem production_keys_strictly_within_development :
  forall w : World,
    exists envs w' development production,
      create_test_environments w = (inr envs, w')
      /\ Py.keys envs = ["development"; "production"]
      /\ Py.get "development" envs = Some development
      /\ Py.get "production" envs = Some production
      /\ variable_keys development =
           ["base_url"; "auth_token"; "test_email"; "test_password"]
      /\ variable_keys production = ["base_url"; "auth_token"]
      /\ length (Py.get_list "values" development) = 4%nat
      /\ length (Py.get_list "values" production) = 2%nat
      /\ key_set production ⊂ key_set development
      /\ ("test_email" ∉ key_set production)
      /\ ("test_password" ∉ key_set production)
      /\ (key_set development ≠ ∅)
      /\ (key_set production ≠ ∅).
Proof.
  intros w. do 4 eexists.
  split; [reflexivity | ].
  do 7 (split; [reflexivity | ]).
  repeat split; apply (bool_decide_unpack _); vm_compute; reflexivity.
Qed.

(** C5. In every generated collection the top-level [auth] block declares
    scheme [bearer] with a [token] parameter whose value refers to the
    variable [auth_token] (as [{{auth_token}}]), and a request of the
    Authentication folder carries a post-response event script with a
    statement that writes into the variable of exactly that name. *)
Theorem bearer_token_variable_is_set_by_login :
  forall w : World,
    exists c w' auth authentication,
      create_postman_collection w = (inr c, w')
      /\ Py.get "auth" c = Some auth
      /\ Py.get_str "type" auth = Some "bearer"
      /\ (exists p, In p (Py.get_list "bearer" auth)
                    /\ Py.get_str "key" p = Some "token"
                    /\ Py.get_str "value" p = Some (var_ref "auth_token"))
      /\ Py.get_list "item" c !! 0%nat = Some authentication
      /\ Py.get_str "name" authentication = Some "🔐 Authentication"
      /\ (exists r stmt,
            In r (descriptors_of authentication)
            /\ In stmt (script_statements "test" r)
            /\ writes_variable "auth_token" stmt = true).
Proof.
  intros w.
  destruct (create_postman_collection_returns w) as (c & Hc & _ & _ & Hitem & _ & Hauth).
  exists c, (drew w). do 2 eexists.
  split; [exact Hc | ].
  split; [exact Hauth | ].
  split; [reflexivity | ].
  split.
  { eexists. split; [left; reflexivity | split; reflexivity]. }
  unfold Py.get_list at 1. rewrite Hitem.
  split; [reflexivity | ].
  split; [reflexivity | ].
  exists (nth 1 (descriptors_of create_auth_folder) PNone).
  exists "    pm.collectionVariables.set('auth_token', response.token);".
  split; [right; left; reflexivity | ].
  split; [ vm_compute; do 6 right; left; reflexivity | vm_compute; reflexivity ].
Qed.

(** C6. The raw payload embedded in the "Create Component Donation Order"
    descriptor is the serialisation of the literal input, and parsing it
    back as JSON yields a structure equal to that input. *)
Theorem donation_order_body_round_trip :
  exists r request body raw,
    In r (descriptors_of create_payments_folder)
    /\ Py.get_str "name" r = Some "Create Component Donation Order"
    /\ request_of r = Some request
    /\ Py.get "body" request = Some body
    /\ Py.get_str "raw" body = Some raw
    /\ raw = Json.dumps donation_order_input (Some 2%nat) true
    /\ raw = join nl ["{";
                      "  " ++ dq ++ "amount" ++ dq ++ ": 25.5,";
                      "  " ++ dq ++ "componentId" ++ dq ++ ": "
                           ++ dq ++ "custom-button-1" ++ dq ++ ",";
                      "  " ++ dq ++ "isPremiumUpgrade" ++ dq ++ ": false";
                      "}"]
    /\ Json.loads raw = Some donation_order_input.
Proof.
  exists (nth 1 (descriptors_of create_payments_folder) PNone).
  do 3 eexists.
  split; [right; left; reflexivity | ].
  do 5 (split; [reflexivity | ]).
  split; vm_compute; reflexivity.
Qed.

(** C7. GET requests need no body, and their request has no ["body"]
    field at all; a body that is present is never empty (it is a dict,
    with a non-empty raw payload).  A request that sends no [token] header
    needs no special auth, and its request has no ["auth"] field of its
    own, so the collection-level AuthConfig applies.  An absent field is
    absent from the emitted text too: no key ["body"] (or ["auth"]) is
    written for such a descriptor. *)
Theorem absent_body_and_auth_fields :
  forall r, In r all_descriptors ->
    exists request,
      request_of r = Some request
      /\ (Py.get_str "method" request = Some "GET" ->
          Py.get "body" request = None)
      /\ (forall body, Py.get "body" request = Some body ->
          body <> PDict [] /\ body <> PStr "" /\ body <> PNone
          /\ exists raw, Py.get_str "raw" body = Some raw /\ raw <> "")
      /\ (has_header_key "token" request = false ->
          Py.get "auth" request = None)
      /\ (Py.get "body" request = None ->
          contains (dq ++ "body" ++ dq)
                   (Json.dumps r (Some 2%nat) false) = false)
      /\ (Py.get "auth" request = None ->
          contains (dq ++ "auth" ++ dq)
                   (Json.dumps r (Some 2%nat) false) = false).
Proof.
  each_descriptor ltac:(
    eexists; split; [reflexivity | ];
    split; [ vm_compute; first [reflexivity | discriminate] | ];
    split; [ intros body Hb; vm_compute in Hb;
             first [ discriminate Hb
                   | injection Hb as <-;
                     repeat split; try discriminate;
                     eexists; split; [reflexivity | discriminate] ]
           | ];
    split; [ vm_compute; first [reflexivity | discriminate] | ];
    split; vm_compute; first [reflexivity | discriminate]).
Qed.

Lemma absent_body_and_auth_fields_witness :
  In health_check all_descriptors
  /\ exists request,
       request_of health_check = Some request
       /\ (Py.get_str "method" request = Some "GET" ->
           Py.get "body" request = None)
       /\ (forall body, Py.get "body" request = Some body ->
           body <> PDict [] /\ body <> PStr "" /\ body <> PNone
           /\ exists raw, Py.get_str "raw" body = Some raw /\ raw <> "")
       /\ (has_header_key "token" request = false ->
           Py.get "auth" request = None)
       /\ (Py.get "body" request = None ->
           contains (dq ++ "body" ++ dq)
                    (Json.dumps health_check (Some 2%nat) false) = false)
       /\ (Py.get "auth" request = None ->
           contains (dq ++ "auth" ++ dq)
                    (Json.dumps health_check (Some 2%nat) false) = false).
Proof.
  assert (H : In health_check all_descriptors).
  { apply nth_In. vm_compute. repeat constructor. }
  split; [exact H | exact (absent_body_and_auth_fields health_check H)].
Defined.

(** The claim that a failed write leaves the writes queued for the other
    artifacts alone fails when the collection file cannot be opened: the
    run ends with status 1 on the [OSError] naming that file, and the
    environments and the README, which could have been written, are not. *)
Lemma unwritable_collection_aborts_queued_writes :
  let w := unwritable_collection_world in
  let o := run_script w in
  w_faults w (collection_filename w) = Some (OpenFails 13)
  /\ Forall (fun name => w_faults w name = None)
       [environment_filename "development" w;
        environment_filename "production" w; readme_filename w]
  /\ exit_code o = 1%Z
  /\ traceback o = Some (OSError 13 (Some (collection_filename w)))
  /\ Forall (fun name => w_files (final o) !! name = None) (artifact_names w)
  /\ w_stdout (final o) =
       ["🚀 Generando colección de Postman para Component Store API..."].
Proof.
  cbv zeta. split; [vm_compute; reflexivity | ].
  split; [repeat constructor | ].
  split; [vm_compute; reflexivity | ].
  split; [vm_compute; reflexivity | ].
  split; [ | vm_compute; reflexivity].
  repeat (apply List.Forall_cons; [vm_compute; reflexivity | ]).
  apply List.Forall_nil.
Qed.

(** C8, as the code has it.  When the write of an artifact fails, [main]
    has no handler: the [OSError] ends the process with status 1 and is
    what the traceback reports (it names the file when [open] failed);
    the artifacts written before it are as a run without faults writes
    them, and the artifacts still to come are not written. A run without
    faults ends with status 0 and writes all four artifacts. *)
Theorem write_failure_ends_the_run :
  forall (w : World) (k : nat) (name : string) (f : fault),
    artifact_names w !! k = Some name ->
    w_faults w name = Some f ->
    (forall j earlier, (j < k)%nat -> artifact_names w !! j = Some earlier ->
       w_faults w earlier = None) ->
    let o := run_script w in
    let ok := run_script (without_faults w) in
    exit_code o = 1%Z
    /\ traceback o = Some (raised f name)
    /\ (forall j earlier, (j < k)%nat -> artifact_names w !! j = Some earlier ->
          is_Some (w_files (final o) !! earlier)
          /\ w_files (final o) !! earlier = w_files (final ok) !! earlier)
    /\ (forall j later, (k < j)%nat -> artifact_names w !! j = Some later ->
          w_files (final o) !! later = w_files w !! later)
    /\ exit_code ok = 0%Z
    /\ traceback ok = None
    /\ (forall any, In any (artifact_names w) ->
          is_Some (w_files (final ok) !! any)).
Proof.
  intros w k name f Hk Hf Hearlier o ok. subst o ok.
  assert (Hok : fault_free (without_faults w)) by (intros n _; reflexivity).
  destruct (fault_free_run _ Hok) as (c & envs & dev & prod & _ & _ & _ & _ & E0 & T0 & F0).
  assert (Hall : forall any, In any (artifact_names w) ->
                   is_Some (w_files (final (run_script (without_faults w))) !! any)).
  { intros any Hin. rewrite F0. clear -Hin. destruct w as [ent dr clk flt fs out].
    exec. exec in Hin.
    destruct Hin as [<- | [<- | [<- | [<- | []]]]]; lookup_through_inserts. }
  cut (exit_code (run_script w) = 1%Z
       /\ traceback (run_script w) = Some (raised f name)
       /\ (forall j earlier, (j < k)%nat -> artifact_names w !! j = Some earlier ->
             is_Some (w_files (final (run_script w)) !! earlier)
             /\ w_files (final (run_script w)) !! earlier
                = w_files (final (run_script (without_faults w))) !! earlier)
       /\ (forall j later, (k < j)%nat -> artifact_names w !! j = Some later ->
             w_files (final (run_script w)) !! later = w_files w !! later)).
  { intros (A & B & C & D).
    exact (conj A (conj B (conj C (conj D (conj E0 (conj T0 Hall)))))). }
  clear E0 T0 Hok Hall F0 c envs dev prod.
  destruct w as [ent dr clk flt fs out].
  pose proof (Hearlier 0%nat) as H0. pose proof (Hearlier 1%nat) as H1.
  pose proof (Hearlier 2%nat) as H2. clear Hearlier.
  exec in H0. exec in H1. exec in H2. exec in Hk. exec in Hf.
  destruct k as [|[|[|[|k]]]]; try discriminate Hk;
    cbn [lookup list_lookup] in Hk, H0, H1, H2; injection Hk as <-.
  - exec. rewrite Hf.
    destruct f; exec; (split; [reflexivity | ]); (split; [reflexivity | ]);
      (split; [intros j n Hj; lia | ]);
      intros j n Hj Hn; nth_artifact j Hn; lookup_through_inserts.
  - specialize (H0 _ ltac:(lia) eq_refl).
    exec. rewrite H0. exec. rewrite Hf.
    destruct f; exec; (split; [reflexivity | ]); (split; [reflexivity | ]);
      (split; intros j n Hj Hn; nth_artifact j Hn; try split;
       lookup_through_inserts).
  - specialize (H0 _ ltac:(lia) eq_refl). specialize (H1 _ ltac:(lia) eq_refl).
    exec. rewrite H0. exec. rewrite H1. exec. rewrite Hf.
    destruct f; exec; (split; [reflexivity | ]); (split; [reflexivity | ]);
      (split; intros j n Hj Hn; nth_artifact j Hn; try split;
       lookup_through_inserts).
  - specialize (H0 _ ltac:(lia) eq_refl). specialize (H1 _ ltac:(lia) eq_refl).
    specialize (H2 _ ltac:(lia) eq_refl).
    exec. rewrite H0. exec. rewrite H1. exec. rewrite H2. exec. rewrite Hf.
    destruct f; exec; (split; [reflexivity | ]); (split; [reflexivity | ]);
      (split; intros j n Hj Hn; nth_artifact j Hn; try split;
       lookup_through_inserts).
Qed.

Lemma write_failure_ends_the_run_witness :
  let w := unwritable_collection_world in
  let name := collection_filename w in
  artifact_names w !! 0%nat = Some name
  /\ w_faults w name = Some (OpenFails 13)
  /\ exit_code (run_script w) = 1%Z
  /\ traceback (run_script w) = Some (OSError 13 (Some name))
  /\ (forall j later, (0 < j)%nat -> artifact_names w !! j = Some later ->
        w_files (final (run_script w)) !! later = w_files w !! later)
  /\ exit_code (run_script (without_faults w)) = 0%Z.
Proof.
  cbv zeta.
  assert (Hk : artifact_names unwritable_collection_world !! 0%nat
               = Some (collection_filename unwritable_collection_world))
    by reflexivity.
  assert (Hf : w_faults unwritable_collection_world
                 (collection_filename unwritable_collection_world)
               = Some (OpenFails 13))
    by (vm_compute; reflexivity).
  assert (He : forall (j : nat) (earlier : string), (j < 0)%nat ->
                 artifact_names unwritable_collection_world !! j = Some earlier ->
                 w_faults unwritable_collection_world earlier = None)
    by (intros j earlier Hj; inversion Hj).
  destruct (write_failure_ends_the_run unwritable_collection_world 0
              (collection_filename unwritable_collection_world)
              (OpenFails 13) Hk Hf He)
    as (A & B & _ & D & E & _).
  exact (conj Hk (conj Hf (conj A (conj B (conj D E))))).
Defined.

(** C9. Every request descriptor that carries a ["body"] field has body
    mode ["raw"] with a payload string that [json.loads] accepts (and
    that is the serialisation of what it parses to), and its headers
    contain [Content-Type: application/json]. *)
Theorem bodies_are_raw_json :
  forall r, In r all_descriptors ->
    exists request,
      request_of r = Some request
      /\ forall body, Py.get "body" request = Some body ->
           Py.get_str "mode" body = Some "raw"
           /\ (exists raw payload,
                 Py.get_str "raw" body = Some raw
                 /\ Json.loads raw = Some payload
                 /\ Json.dumps payload (Some 2%nat) true = raw)
           /\ has_header "Content-Type" "application/json" request = true.
Proof.
  each_descriptor ltac:(
    eexists; split; [reflexivity | ];
    intros body Hb; vm_compute in Hb;
    first [ discriminate Hb
          | injection Hb as <-;
            split; [reflexivity | ];
            split; [ do 2 eexists; split; [reflexivity | ];
                     split; [vm_compute; reflexivity | vm_compute; reflexivity]
                   | vm_compute; reflexivity ] ]).
Qed.

Lemma bodies_are_raw_json_witness :
  In create_component all_descriptors
  /\ exists request,
       request_of create_component = Some request
       /\ forall body, Py.get "body" request = Some body ->
            Py.get_str "mode" body = Some "raw"
            /\ (exists raw payload,
                  Py.get_str "raw" body = Some raw
                  /\ Json.loads raw = Some payload
                  /\ Json.dumps payload (Some 2%nat) true = raw)
            /\ has_header "Content-Type" "application/json" request = true.
Proof.
  assert (H : In create_component all_descriptors).
  { apply nth_In. vm_compute. repeat constructor. }
  split; [exact H | exact (bodies_are_raw_json create_component H)].
Defined.

(** C10. Every request descriptor that declares a per-request auth
    override declares it as type ["noauth"] and carries the header
    [token: {{auth_token}}]; a descriptor without an auth override carries
    no [token] header. *)
Theorem auth_override_iff_token_header :
  forall r, In r all_descriptors ->
    exists request,
      request_of r = Some request
      /\ (forall auth, Py.get "auth" request = Some auth ->
            Py.get_str "type" auth = Some "noauth"
            /\ has_header "token" (var_ref "auth_token") request = true)
      /\ (Py.get "auth" request = None ->
            has_header_key "token" request = false).
Proof.
  each_descriptor ltac:(
    eexists; split; [reflexivity | ];
    split;
    [ intros auth Ha; vm_compute in Ha;
      first [ discriminate Ha
            | injection Ha as <-; split; vm_compute; reflexivity ]
    | vm_compute; first [reflexivity | discriminate] ]).
Qed.

Lemma auth_override_iff_token_header_witness :
  In get_specific_component all_descriptors
  /\ exists request,
       request_of get_specific_component = Some request
       /\ (forall auth, Py.get "auth" request = Some auth ->
             Py.get_str "type" auth = Some "noauth"
             /\ has_header "token" (var_ref "auth_token") request = true)
       /\ (Py.get "auth" request = None ->
             has_header_key "token" request = false).
Proof.
  assert (H : In get_specific_component all_descriptors).
  { apply nth_In. vm_compute. repeat constructor. }
  split; [exact H | exact (auth_override_iff_token_header get_specific_component H)].
Defined.

(* ===================================================================== *)
(** ** Further properties of the script                                   *)
(* ===================================================================== *)

(** *** The writes of [main] *)

Tactic Notation "run" :=
  cbv [run_script main json_dump_to write_file print mbind M_bind mret M_ret
       create_postman_collection create_test_environments generate_uuid uuid4
       datetime_now for_each items with_files drew
       w_faults w_entropy w_drawn w_clock w_files w_stdout
       collection_filename environment_filename readme_filename
       collection_in environments_in environment_in artifacts write_artifact
       started reported ended success_report banner default fst snd
       Py.get Py.assoc Py.set Py.assoc_set String.eqb Ascii.eqb Bool.eqb].

(** [main] prints the banner, draws the three identifiers, writes the
    artifacts in order and, when no write raised, prints the report. *)
Lemma main_as_writes (w : World) :
  run_script w = ended w (for_each (artifacts w) write_artifact (started w)).
Proof.
  destruct w as [ent dr clk flt fs out]. run.
  repeat match goal with
         | |- context [match flt ?n with _ => _ end] =>
             destruct (flt n) as [[?|? ?]|] eqn:?; run
         end;
  rewrite <- ?app_assoc; reflexivity.
Qed.

Lemma artifacts_names (w : World) : map fst (artifacts w) = artifact_names w.
Proof. reflexivity. Qed.

(** One step of the loop. *)
Lemma for_each_cons {A : Type} (x : A) (xs : list A) (body : A -> M unit) (w : World) :
  for_each (x :: xs) body w =
  match body x w with
  | (inl e, w') => (inl e, w')
  | (inr _, w') => for_each xs body w'
  end.
Proof. reflexivity. Qed.

(** What one write does, by the fault of its file. *)
Lemma write_artifact_cases (a : string * string) (w : World) :
  (w_faults w (fst a) = None
   /\ write_artifact a w = (inr tt, with_files (<[fst a := snd a]> (w_files w)) w))
  \/ (exists e, w_faults w (fst a) = Some (OpenFails e)
      /\ write_artifact a w = (inl (OSError e (Some (fst a))), w))
  \/ (exists e n, w_faults w (fst a) = Some (WriteFails e n)
      /\ write_artifact a w
         = (inl (OSError e None),
            with_files (<[fst a := String.substring 0 n (snd a)]> (w_files w)) w)).
Proof.
  unfold write_artifact, write_file.
  destruct (w_faults w (fst a)) as [[e|e n]|].
  - right. left. exists e. split; reflexivity.
  - right. right. exists e, n. split; reflexivity.
  - left. split; reflexivity.
Qed.

(** The writes change nothing of the world but its files. *)
Lemma writes_frame (arts : list (string * string)) (w : World) :
  let w' := snd (for_each arts write_artifact w) in
  w_entropy w' = w_entropy w /\ w_drawn w' = w_drawn w /\ w_clock w' = w_clock w
  /\ w_faults w' = w_faults w /\ w_stdout w' = w_stdout w.
Proof.
  revert w. induction arts as [|a arts IH]; intros w; [cbn; tauto | ].
  cbv zeta. rewrite for_each_cons.
  destruct (write_artifact_cases a w) as [[_ ->] | [(e & _ & ->) | (e & n & _ & ->)]].
  - specialize (IH (with_files (<[fst a := snd a]> (w_files w)) w)).
    cbv zeta in IH. exact IH.
  - cbn. tauto.
  - cbn. tauto.
Qed.

(** A file that is not among the artifacts keeps its content, or stays
    absent. *)
Lemma writes_untouched (arts : list (string * string)) (w : World) (name : string) :
  ~ In name (map fst arts) ->
  w_files (snd (for_each arts write_artifact w)) !! name = w_files w !! name.
Proof.
  revert w. induction arts as [|a arts IH]; intros w Hn; [reflexivity | ].
  rewrite for_each_cons.
  assert (Ha : fst a <> name) by (intros E; apply Hn; left; exact E).
  assert (Hr : ~ In name (map fst arts)) by (intros E; apply Hn; right; exact E).
  destruct (write_artifact_cases a w) as [[_ ->] | [(e & _ & ->) | (e & n & _ & ->)]].
  - rewrite (IH _ Hr). cbn. apply lookup_insert_ne. exact Ha.
  - reflexivity.
  - cbn. apply lookup_insert_ne. exact Ha.
Qed.

(** The writes all succeed exactly when no artifact has a fault. *)
Lemma writes_succeed_iff (arts : list (string * string)) (w : World) :
  fst (for_each arts write_artifact w) = inr tt
  <-> forall name, In name (map fst arts) -> w_faults w name = None.
Proof.
  revert w. induction arts as [|a arts IH]; intros w.
  - split; [intros _ name [] | reflexivity].
  - rewrite for_each_cons.
    destruct (write_artifact_cases a w) as [[Hf ->] | [(e & Hf & ->) | (e & n & Hf & ->)]].
    + rewrite IH. cbn [map In with_files w_faults].
      split.
      * intros H name [<- | Hin]; [exact Hf | exact (H name Hin)].
      * intros H name Hin. apply H. right. exact Hin.
    + split; [discriminate | ].
      intros H. specialize (H (fst a) (or_introl eq_refl)). congruence.
    + split; [discriminate | ].
      intros H. specialize (H (fst a) (or_introl eq_refl)). congruence.
Qed.

(** When the writes succeed and the names differ, each artifact holds its
    text. *)
Lemma writes_written (arts : list (string * string)) (w : World) :
  NoDup (map fst arts) ->
  fst (for_each arts write_artifact w) = inr tt ->
  forall name text, In (name, text) arts ->
    w_files (snd (for_each arts write_artifact w)) !! name = Some text.
Proof.
  revert w. induction arts as [|a arts IH]; intros w Hnd Hok name text Hin; [destruct Hin | ].
  cbn [map] in Hnd. apply NoDup_cons in Hnd as [Hfresh Hnd].
  rewrite for_each_cons in Hok |- *.
  destruct (write_artifact_cases a w) as [[_ E] | [(e & _ & E) | (e & n & _ & E)]];
    rewrite E in Hok |- *; try discriminate Hok.
  destruct Hin as [-> | Hin].
  - rewrite writes_untouched.
    + cbn. apply lookup_insert_eq.
    + intros Hi. apply Hfresh. apply list_elem_of_In. exact Hi.
  - exact (IH _ Hnd Hok name text Hin).
Qed.

(** A run leaves every file alone that is not one of its artifacts. *)
Lemma run_untouched (w : World) (name : string) :
  ~ In name (artifact_names w) ->
  w_files (final (run_script w)) !! name = w_files w !! name.
Proof.
  intros Hn. rewrite main_as_writes.
  pose proof (writes_untouched (artifacts w) (started w) name Hn) as H.
  destruct (for_each (artifacts w) write_artifact (started w)) as [[e|u] w'];
    exact H.
Qed.

(** A run without faults ends with status 0, prints the report and
    leaves every artifact with its text. *)
Lemma fault_free_outcome (w : World) :
  fault_free w ->
  exit_code (run_script w) = 0%Z
  /\ traceback (run_script w) = None
  /\ w_stdout (final (run_script w))
     = (w_stdout w ++ banner :: success_report w)%list
  /\ forall name text, In (name, text) (artifacts w) ->
       w_files (final (run_script w)) !! name = Some text.
Proof.
  intros F. rewrite main_as_writes.
  pose proof (proj2 (writes_succeed_iff (artifacts w) (started w)) F) as Hok.
  pose proof (writes_frame (artifacts w) (started w)) as (_ & _ & _ & _ & Hout).
  pose proof (writes_written (artifacts w) (started w)
                (artifact_names_distinct w) Hok) as Hw.
  destruct (for_each (artifacts w) write_artifact (started w)) as [[e|[]] w'];
    [discriminate Hok | ].
  split; [reflexivity | ]. split; [reflexivity | ].
  split; [ | exact Hw].
  cbn in Hout |- *. rewrite Hout. rewrite <- app_assoc. reflexivity.
Qed.

(** A run changes the files and the output; it advances the identifier
    source by three draws and leaves the clock and the faults alone. *)
Lemma run_frame (w : World) :
  let w' := final (run_script w) in
  w_entropy w' = w_entropy w /\ w_drawn w' = S (S (S (w_drawn w)))
  /\ w_clock w' = w_clock w /\ w_faults w' = w_faults w.
Proof.
  cbv zeta. rewrite main_as_writes.
  pose proof (writes_frame (artifacts w) (started w)) as (He & Hd & Hc & Hf & _).
  destruct (for_each (artifacts w) write_artifact (started w)) as [[e|[]] w'];
    exact (conj He (conj Hd (conj Hc Hf))).
Qed.

(** The identifier of the collection is the next draw. *)
Lemma collection_identifier (w : World) :
  Py.get "info" (collection_in w) ≫= Py.get_str "_postman_id"
  = Some (w_entropy w (w_drawn w)).
Proof. destruct w. reflexivity. Qed.

(** [main] does not read the files of the directory: the artifacts of a
    run are the same in any directory. *)
Lemma artifacts_with_files (fs : gmap string string) (w : World) :
  artifacts (with_files fs w) = artifacts w.
Proof. destruct w. reflexivity. Qed.

(** *** Timestamps *)

Lemma zfill_two_digits (n : nat) :
  (n < 100)%nat ->
  String.length (zfill 2 n) = 2%nat /\ digits_value (zfill 2 n) = n.
Proof.
  intros Hn.
  assert (H : forallb (fun n => Nat.eqb (String.length (zfill 2 n)) 2
                                && Nat.eqb (digits_value (zfill 2 n)) n)
                      (seq 0 100) = true) by (vm_compute; reflexivity).
  rewrite forallb_forall in H.
  specialize (H n ltac:(apply in_seq; lia)).
  apply andb_prop in H as [H1 H2].
  apply Nat.eqb_eq in H1, H2. exact (conj H1 H2).
Qed.

Lemma zfill_four_digits (n : nat) :
  (Z.of_nat n < 10000)%Z ->
  String.length (zfill 4 n) = 4%nat /\ digits_value (zfill 4 n) = n.
Proof.
  intros Hn.
  assert (H : forallb (fun n => Nat.eqb (String.length (zfill 4 n)) 4
                                && Nat.eqb (digits_value (zfill 4 n)) n)
                      (seq 0 (100 * 100)) = true) by (vm_compute; reflexivity).
  rewrite forallb_forall in H.
  specialize (H n ltac:(apply in_seq; lia)).
  apply andb_prop in H as [H1 H2].
  apply Nat.eqb_eq in H1, H2. exact (conj H1 H2).
Qed.

Lemma append_eq_same_length (a b x y : string) :
  String.length a = String.length b -> a ++ x = b ++ y -> a = b /\ x = y.
Proof.
  revert b. induction a as [|c a IH]; intros [|d b] Hl E; try discriminate Hl.
  - split; [reflexivity | exact E].
  - change (String c (a ++ x) = String d (b ++ y)) in E.
    injection E as Ec Et. injection Hl as Hl.
    destruct (IH b Hl Et) as [-> ->]. subst d. split; reflexivity.
Qed.

(** The timestamp of a date in range determines the date. *)
Lemma strftime_inj (t1 t2 : datetime) :
  datetime_in_range t1 -> datetime_in_range t2 ->
  strftime_Ymd_HMS t1 = strftime_Ymd_HMS t2 -> t1 = t2.
Proof.
  intros R1 R2 E. unfold datetime_in_range in R1, R2.
  destruct t1 as [y1 mo1 d1 h1 mi1 s1], t2 as [y2 mo2 d2 h2 mi2 s2].
  cbn [year month day hour minute second] in R1, R2.
  unfold strftime_Ymd_HMS in E.
  cbn [year month day hour minute second] in E.
  destruct (zfill_four_digits y1 ltac:(lia)) as [Ly1 Vy1].
  destruct (zfill_four_digits y2 ltac:(lia)) as [Ly2 Vy2].
  destruct (zfill_two_digits mo1 ltac:(lia)) as [Lmo1 Vmo1].
  destruct (zfill_two_digits mo2 ltac:(lia)) as [Lmo2 Vmo2].
  destruct (zfill_two_digits d1 ltac:(lia)) as [Ld1 Vd1].
  destruct (zfill_two_digits d2 ltac:(lia)) as [Ld2 Vd2].
  destruct (zfill_two_digits h1 ltac:(lia)) as [Lh1 Vh1].
  destruct (zfill_two_digits h2 ltac:(lia)) as [Lh2 Vh2].
  destruct (zfill_two_digits mi1 ltac:(lia)) as [Lmi1 Vmi1].
  destruct (zfill_two_digits mi2 ltac:(lia)) as [Lmi2 Vmi2].
  destruct (zfill_two_digits s1 ltac:(lia)) as [Ls1 Vs1].
  destruct (zfill_two_digits s2 ltac:(lia)) as [Ls2 Vs2].
  apply append_eq_same_length in E as [Ey E]; [ | congruence].
  apply append_eq_same_length in E as [Emo E]; [ | congruence].
  apply append_eq_same_length in E as [Ed E]; [ | congruence].
  apply append_eq_same_length in E as [_ E]; [ | reflexivity].
  apply append_eq_same_length in E as [Eh E]; [ | congruence].
  apply append_eq_same_length in E as [Emi Es]; [ | congruence].
  rewrite <- Vy1, <- Vy2, <- Vmo1, <- Vmo2, <- Vd1, <- Vd2,
          <- Vh1, <- Vh2, <- Vmi1, <- Vmi2, <- Vs1, <- Vs2.
  rewrite Ey, Emo, Ed, Eh, Emi, Es. reflexivity.
Qed.

Lemma sample_clocks_in_range :
  datetime_in_range (w_clock sample_world)
  /\ datetime_in_range (w_clock later_world).
Proof. unfold datetime_in_range. cbn. lia. Qed.

(** *** Strings through the encoder and the decoder *)

Lemma escape_bytes_cons (c : ascii) (s : string) :
  Json.escape_bytes (String c s) = escape_byte c ++ Json.escape_bytes s.
Proof.
  unfold escape_byte. cbn [Json.escape_bytes].
  destruct (Json.short_escape (N_of_ascii c)) as [e|].
  - rewrite append_assoc. reflexivity.
  - destruct (N_of_ascii c <? 32)%N.
    + rewrite !append_assoc. reflexivity.
    + reflexivity.
Qed.

(** The decoder reads back the byte the encoder wrote, whichever of the
    256 it is. *)
Lemma scanstring_escape_byte (c : ascii) (x t r : string) :
  Json.scanstring x = Some (t, r) ->
  Json.scanstring (escape_byte c ++ x) = Some (String c t, r).
Proof.
  intros H.
  destruct c as [[] [] [] [] [] [] [] []];
    cbv [escape_byte Json.escape_bytes Json.short_escape N_of_ascii N_of_digits
         N.add N.mul N.ltb N.compare Pos.compare Pos.compare_cont Pos.add Pos.succ
         Pos.mul hex4 hex_digit N.land N.shiftr Pos.land Pos.shiftr N.to_nat
         Pos.to_nat Pos.iter_op Init.Nat.add String.get dq dquote ascii_of_nat
         ascii_of_pos String.append Pos.iter N.div2 Pos.div2 N.succ_double
         N.double Pos.pred_N];
    simpl Json.scanstring; rewrite H; reflexivity.
Qed.

(** [py_scanstring] is a left inverse of [encode_basestring], for every
    string. *)
Lemma scanstring_escape_bytes (s rest : string) :
  Json.scanstring (Json.escape_bytes s ++ String dquote rest) = Some (s, rest).
Proof.
  induction s as [|c s IH].
  - reflexivity.
  - rewrite escape_bytes_cons, append_assoc.
    apply scanstring_escape_byte. exact IH.
Qed.

(** One step of the decoder: a string, the opening brace of an object,
    and one member of an object. *)
Lemma scan_once_string (f : nat) (x t r : string) :
  Json.scanstring x = Some (t, r) ->
  Json.scan_once (S f) (String dquote x) = Some (PStr t, r).
Proof. intros H. simpl. rewrite H. reflexivity. Qed.

Lemma scan_once_object (f : nat) (rest : string) (c : ascii) (r : string) :
  Json.skip_ws rest = String c r -> Json.is_char 125 c = false ->
  Json.scan_once (S f) (String "{" rest) = Json.parse_members f (String c r) [].
Proof. intros H1 H2. simpl. rewrite H1, H2. reflexivity. Qed.

Lemma parse_members_step (f : nat) (s1 key s2 s3 : string) (v : pyval) (s4 : string)
    (acc : list (string * pyval)) :
  Json.scanstring s1 = Some (key, s2) ->
  Json.skip_ws s2 = String ":" s3 ->
  Json.scan_once f (Json.skip_ws s3) = Some (v, s4) ->
  Json.parse_members (S f) (String dquote s1) acc
  = match Json.skip_ws s4 with
    | String c5 s5 =>
        if Json.is_char 125 c5 then Some (PDict (Py.assoc_set key v acc), s5)
        else if Json.is_char 44 c5
             then Json.parse_members f (Json.skip_ws s5) (Py.assoc_set key v acc)
             else None
    | "" => None
    end.
Proof.
  intros H1 H2 H3. simpl. rewrite H1. simpl. rewrite H2. simpl. rewrite H3.
  reflexivity.
Qed.

(** The text of a document is cut at the identifier [ident]: what
    follows the opening quote of the identifier is a string [X] of which
    only that it scans to [ident], and how long it is, is kept. *)
Ltac expose_identifier ident :=
  unfold Json.dumps; cbn [Json.iterencode map fst snd join];
  change (Json.encode_string false ident) with (dq ++ Json.escape_bytes ident ++ dq);
  rewrite !append_assoc;
  let Hs := fresh "Hs" in
  pose proof (scanstring_escape_bytes ident) as Hs;
  generalize dependent (Json.escape_bytes ident);
  let e := fresh "e" in
  intros e Hs;
  match goal with
  | |- Json.loads ?L = _ =>
      match L with
      | context [e ++ ?T] =>
          let T' := eval vm_compute in T in
          replace T with T' by (vm_compute; reflexivity);
          match T' with
          | String _ ?T0 =>
              assert (Hx : Json.scanstring (e ++ T') = Some (ident, T0))
                by (exact (Hs T0));
              clear Hs;
              assert (Hlen : String.length (e ++ T')
                             = (String.length T' + String.length e)%nat)
                by (rewrite length_append; apply Nat.add_comm);
              generalize dependent (e ++ T'); generalize (String.length e)
          end
      end
  end;
  let x := fresh "x" in
  let X := fresh "X" in
  intros x X Hx Hlen;
  unfold Json.loads;
  cbv [Json.newline_indent Json.encode_string Json.key_separator Json.escape_bytes
       Json.short_escape N_of_ascii N_of_digits N.add N.mul N.ltb N.compare
       Pos.compare Pos.compare_cont Pos.add Pos.succ Pos.mul
       repeat_str Nat.mul Nat.add nl dq String.append];
  simpl String.length; rewrite Hlen; simpl Json.skip_ws.

(** The member whose value is the identifier: its key, then the string. *)
Ltac identifier_member Hx :=
  erewrite parse_members_step;
  [ | reflexivity | reflexivity
    | simpl Json.skip_ws; apply scan_once_string; exact Hx ].

(** The text of an environment parses back to the environment, whatever
    its identifier. *)
Lemma environment_parses_back (env_name : string) (w : World) :
  In env_name ["development"; "production"] ->
  Json.loads (Json.dumps (environment_in env_name w) (Some 2%nat) false)
  = Some (environment_in env_name w).
Proof.
  intros [<- | [<- | []]]; destruct w as [ent dr clk flt fs out].
  - cbv [environment_in environments_in create_test_environments generate_uuid
         uuid4 drew mbind M_bind mret M_ret w_entropy w_drawn default from_option
         Datatypes.id Py.get Py.assoc String.eqb Ascii.eqb Bool.eqb].
    generalize (ent (S dr)) as ident. intros ident.
    expose_identifier ident.
    erewrite scan_once_object; [ | reflexivity | reflexivity].
    identifier_member Hx.
    vm_compute. reflexivity.
  - cbv [environment_in environments_in create_test_environments generate_uuid
         uuid4 drew mbind M_bind mret M_ret w_entropy w_drawn default from_option
         Datatypes.id Py.get Py.assoc String.eqb Ascii.eqb Bool.eqb].
    generalize (ent (S (S dr))) as ident. intros ident.
    expose_identifier ident.
    erewrite scan_once_object; [ | reflexivity | reflexivity].
    identifier_member Hx.
    vm_compute. reflexivity.
Qed.

(** The text of the collection parses back to the collection, whatever
    its identifier. *)
Lemma collection_parses_back (w : World) :
  Json.loads (Json.dumps (collection_in w) (Some 2%nat) false)
  = Some (collection_in w).
Proof.
  destruct w as [ent dr clk flt fs out].
  cbv [collection_in create_postman_collection generate_uuid uuid4 drew
       mbind M_bind mret M_ret w_entropy w_drawn
       Py.set Py.assoc_set String.eqb Ascii.eqb Bool.eqb].
  generalize (ent dr) as ident. intros ident.
  set (folders := PList _).
  expose_identifier ident.
  erewrite scan_once_object; [ | reflexivity | reflexivity].
  erewrite parse_members_step;
    [ | reflexivity | reflexivity | ].
  2: { simpl Json.skip_ws.
       erewrite scan_once_object; [ | reflexivity | reflexivity].
       identifier_member Hx.
       vm_compute. reflexivity. }
  vm_compute. reflexivity.
Qed.

(** *** Checks on lists of strings *)

(** Inclusion of one list of strings in another, by computation. *)
Lemma incl_by_check (l1 l2 : list string) :
  forallb (fun x => existsb (String.eqb x) l2) l1 = true -> incl l1 l2.
Proof.
  intros H x Hx. rewrite forallb_forall in H. specialize (H x Hx).
  apply existsb_exists in H as (y & Hy & E).
  apply String.eqb_eq in E. subst y. exact Hy.
Qed.

Ltac by_check := apply incl_by_check; vm_compute; reflexivity.

(** An implication between two closed facts, one way or the other. *)
Ltac closed_implication :=
  let H := fresh in
  intros H;
  first [ solve [vm_compute; first [reflexivity | eexists; reflexivity]]
        | exfalso; vm_compute in H;
          first [discriminate H | destruct H as [? H]; discriminate H] ].

(** Membership in a list that computes: each member is tried. *)
Ltac among H :=
  vm_compute in H; repeat (destruct H as [<- | H]; [cbn; tauto | ]); destruct H.

(** *** What a run does to the directory and prints *)




(** X3. The four file names the report announces are the names of the
    four artifacts, and conversely; after a run without faults each
    announced name is a file of the directory. *)
Theorem announced_names_are_the_written_files :
  forall w : World,
    (forall label name,
       In label report_labels -> In (label ++ name) (success_report w) ->
       In name (artifact_names w))
    /\ (forall name, In name (artifact_names w) ->
          exists label, In label report_labels
                        /\ In (label ++ name) (success_report w))
    /\ (fault_free w ->
          w_stdout (final (run_script w))
          = (w_stdout w ++ banner :: success_report w)%list
          /\ forall name, In name (artifact_names w) ->
               is_Some (w_files (final (run_script w)) !! name)).
Proof.
  intros w. split; [ | split].
  - intros label name Hl Hline.
    unfold report_labels in Hl. unfold success_report, announced_endpoints in Hline.
    cbn [app In] in Hl, Hline.
    repeat (destruct Hl as [<- | Hl]; [ | ]); try contradiction;
      repeat (destruct Hline as [E | Hline]; [ | ]); try contradiction;
      try discriminate E;
      apply (inj (String.append _)) in E; subst name;
      unfold artifact_names; cbn [In]; tauto.
  - intros name Hn. unfold artifact_names in Hn. cbn [In] in Hn.
    destruct Hn as [<- | [<- | [<- | [<- | []]]]].
    + exists "   📄 Colección: ". split; [cbn; tauto | ].
      unfold success_report. cbn [app In]. right. left. reflexivity.
    + exists "   🌍 Entorno Development: ". split; [cbn; tauto | ].
      unfold success_report. cbn [app In]. do 2 right. left. reflexivity.
    + exists "   🌍 Entorno Production: ". split; [cbn; tauto | ].
      unfold success_report. cbn [app In]. do 3 right. left. reflexivity.
    + exists "   📖 README: ". split; [cbn; tauto | ].
      unfold success_report. cbn [app In]. do 4 right. left. reflexivity.
  - intros F.
    destruct (fault_free_outcome w F) as (_ & _ & Hout & Hw).
    split; [exact Hout | ].
    intros name Hn. rewrite <- artifacts_names in Hn.
    apply in_map_iff in Hn as ((n & t) & <- & Hin).
    exists t. exact (Hw n t Hin).
Qed.


(** X5. For dates with a four-digit year, the timestamp has fifteen
    characters, and two runs have an artifact name in common only when
    they start in the same second: runs at different times never write to
    each other's files. *)
Theorem runs_share_a_name_only_in_the_same_second :
  forall w1 w2 : World,
    datetime_in_range (w_clock w1) -> datetime_in_range (w_clock w2) ->
    String.length (strftime_Ymd_HMS (w_clock w1)) = 15%nat
    /\ forall name, In name (artifact_names w1) -> In name (artifact_names w2) ->
         w_clock w1 = w_clock w2.
Proof.
  intros w1 w2 R1 R2. split.
  - unfold datetime_in_range in R1. unfold strftime_Ymd_HMS.
    destruct (zfill_four_digits (year (w_clock w1)) ltac:(lia)) as [Ly _].
    destruct (zfill_two_digits (month (w_clock w1)) ltac:(lia)) as [Lmo _].
    destruct (zfill_two_digits (day (w_clock w1)) ltac:(lia)) as [Ld _].
    destruct (zfill_two_digits (hour (w_clock w1)) ltac:(lia)) as [Lh _].
    destruct (zfill_two_digits (minute (w_clock w1)) ltac:(lia)) as [Lmi _].
    destruct (zfill_two_digits (second (w_clock w1)) ltac:(lia)) as [Ls _].
    rewrite !length_append, Ly, Lmo, Ld, Lh, Lmi, Ls. reflexivity.
  - intros name H1 H2. apply (strftime_inj _ _ R1 R2).
    unfold artifact_names, collection_filename, environment_filename,
      readme_filename in H1, H2.
    revert H1 H2.
    generalize (strftime_Ymd_HMS (w_clock w1)) as ts1.
    generalize (strftime_Ymd_HMS (w_clock w2)) as ts2.
    intros ts2 ts1 H1 H2. cbn [In] in H1, H2.
    destruct H1 as [<- | [<- | [<- | [<- | []]]]];
      destruct H2 as [E | [E | [E | [E | []]]]]; try discriminate E.
    + apply (inj (String.append _)) in E. symmetry. exact (append_inv_tail _ _ _ E).
    + apply (inj (String.append _)) in E. apply (inj (String.append _)) in E.
      apply (inj (String.append _)) in E. symmetry. exact (append_inv_tail _ _ _ E).
    + apply (inj (String.append _)) in E. apply (inj (String.append _)) in E.
      apply (inj (String.append _)) in E. symmetry. exact (append_inv_tail _ _ _ E).
    + apply (inj (String.append _)) in E. symmetry. exact (append_inv_tail _ _ _ E).
Qed.

Lemma runs_share_a_name_only_in_the_same_second_witness :
  datetime_in_range (w_clock sample_world)
  /\ datetime_in_range (w_clock later_world)
  /\ String.length (strftime_Ymd_HMS (w_clock sample_world)) = 15%nat
  /\ forall name, In name (artifact_names sample_world) ->
       In name (artifact_names later_world) ->
       w_clock sample_world = w_clock later_world.
Proof.
  destruct sample_clocks_in_range as [R1 R2].
  split; [exact R1 | ]. split; [exact R2 | ].
  exact (runs_share_a_name_only_in_the_same_second sample_world later_world R1 R2).
Defined.

(** X6. A second run in the same second overwrites the first: it succeeds
    again, under the same four names, and leaves the directory as if the
    first run had written nothing; the collection file then carries the
    fourth identifier drawn. *)
Theorem second_run_overwrites_the_first :
  forall w : World,
    fault_free w ->
    let w1 := final (run_script w) in
    exit_code (run_script w1) = 0%Z
    /\ artifact_names w1 = artifact_names w
    /\ w_files (final (run_script w1))
       = w_files (final (run_script (with_files (w_files w) w1)))
    /\ w_files (final (run_script w1)) !! collection_filename w
       = Some (Json.dumps (collection_in w1) (Some 2%nat) false)
    /\ Py.get "info" (collection_in w1) ≫= Py.get_str "_postman_id"
       = Some (w_entropy w (S (S (S (w_drawn w))))).
Proof.
  intros w F w1.
  destruct (run_frame w) as (He & Hd & Hc & Hf). fold w1 in He, Hd, Hc, Hf.
  assert (Hn : artifact_names w1 = artifact_names w).
  { unfold artifact_names, collection_filename, environment_filename,
      readme_filename. rewrite Hc. reflexivity. }
  assert (F1 : fault_free w1).
  { intros name Hin. rewrite Hn in Hin. rewrite Hf. exact (F name Hin). }
  assert (F2 : fault_free (with_files (w_files w) w1)).
  { intros name Hin. exact (F1 name Hin). }
  destruct (fault_free_outcome w1 F1) as (E1 & _ & _ & W1).
  destruct (fault_free_outcome (with_files (w_files w) w1) F2) as (_ & _ & _ & W2).
  rewrite artifacts_with_files in W2.
  split; [exact E1 | ]. split; [exact Hn | ].
  split; [ | split].
  - apply map_eq. intros i.
    destruct (in_dec string_dec i (artifact_names w1)) as [Hin | Hout].
    + rewrite <- artifacts_names in Hin.
      apply in_map_iff in Hin as ((n & t) & <- & Hin).
      cbn [fst]. rewrite (W1 n t Hin), (W2 n t Hin). reflexivity.
    + rewrite (run_untouched w1 i Hout).
      rewrite (run_untouched (with_files (w_files w) w1) i Hout).
      assert (Hout' : ~ In i (artifact_names w)) by (rewrite <- Hn; exact Hout).
      exact (run_untouched w i Hout').
  - apply W1. left. unfold collection_filename. rewrite Hc. reflexivity.
  - rewrite collection_identifier, He, Hd. reflexivity.
Qed.

Lemma second_run_overwrites_the_first_witness :
  fault_free sample_world
  /\ exit_code (run_script (final (run_script sample_world))) = 0%Z
  /\ w_files (final (run_script (final (run_script sample_world))))
     = w_files (final (run_script (with_files (w_files sample_world)
                                     (final (run_script sample_world))))).
Proof.
  assert (F : fault_free sample_world) by (intros name _; reflexivity).
  split; [exact F | ].
  destruct (second_run_overwrites_the_first sample_world F) as (A & _ & B & _).
  exact (conj A B).
Defined.

(** X7. After a run without faults the three JSON artifacts are valid
    JSON, whatever strings the identifier source returned: [json.loads]
    reads the collection file back to the collection document and each
    environment file back to its environment document. *)
Theorem written_json_parses_back :
  forall w : World,
    fault_free w ->
    exists collection_text development_text production_text,
      w_files (final (run_script w)) !! collection_filename w
        = Some collection_text
      /\ Json.loads collection_text = Some (collection_in w)
      /\ w_files (final (run_script w)) !! environment_filename "development" w
         = Some development_text
      /\ Json.loads development_text = Some (environment_in "development" w)
      /\ w_files (final (run_script w)) !! environment_filename "production" w
         = Some production_text
      /\ Json.loads production_text = Some (environment_in "production" w).
Proof.
  intros w F.
  destruct (fault_free_outcome w F) as (_ & _ & _ & Hw).
  do 3 eexists.
  split; [apply Hw; left; reflexivity | ].
  split; [apply collection_parses_back | ].
  split; [apply Hw; right; left; reflexivity | ].
  split; [apply environment_parses_back; left; reflexivity | ].
  split; [apply Hw; do 2 right; left; reflexivity | ].
  apply environment_parses_back. right. left. reflexivity.
Qed.

Lemma written_json_parses_back_witness :
  fault_free sample_world
  /\ exists collection_text development_text production_text,
       w_files (final (run_script sample_world)) !! collection_filename sample_world
         = Some collection_text
       /\ Json.loads collection_text = Some (collection_in sample_world)
       /\ w_files (final (run_script sample_world))
            !! environment_filename "development" sample_world
          = Some development_text
       /\ Json.loads development_text
          = Some (environment_in "development" sample_world)
       /\ w_files (final (run_script sample_world))
            !! environment_filename "production" sample_world
          = Some production_text
       /\ Json.loads production_text
          = Some (environment_in "production" sample_world).
Proof.
  assert (F : fault_free sample_world) by (intros name _; reflexivity).
  split; [exact F | exact (written_json_parses_back sample_world F)].
Defined.

(** *** The shape of the descriptors *)

(** X8. Every descriptor the four folder builders produce follows one item
    schema: a non-empty name, a request and an empty list of saved
    responses, with no key outside name, request, response and event; the
    request has a method that is GET or POST, headers that are key and
    value pairs of strings, a url with its raw text, the base-URL
    placeholder as only host and a non-empty path, and a non-empty
    description; no key occurs twice. *)
Theorem descriptors_follow_the_item_schema :
  forall r, In r all_descriptors ->
    exists name request method headers url raw path description,
      Py.get_str "name" r = Some name /\ name <> ""
      /\ request_of r = Some request
      /\ incl (Py.keys r) ["name"; "request"; "response"; "event"]
      /\ incl (Py.keys request)
              ["auth"; "method"; "header"; "body"; "url"; "description"]
      /\ NoDup (Py.keys r) /\ NoDup (Py.keys request)
      /\ Py.get_str "method" request = Some method
      /\ (method = "GET" \/ method = "POST")
      /\ Py.get "header" request = Some (PList headers)
      /\ Forall (fun h => Py.keys h = ["key"; "value"]
                          /\ is_Some (Py.get_str "key" h)
                          /\ is_Some (Py.get_str "value" h)) headers
      /\ Py.get "url" request = Some url
      /\ incl (Py.keys url) ["raw"; "host"; "path"; "query"]
      /\ Py.get_str "raw" url = Some raw
      /\ Py.get "host" url = Some (PList [PStr base_url_placeholder])
      /\ mapM Py.str (Py.get_list "path" url) = Some path /\ path <> []
      /\ Py.get_str "description" request = Some description
      /\ description <> ""
      /\ Py.get "response" r = Some (PList []).
Proof.
  each_descriptor ltac:(
    do 8 eexists;
    split; [reflexivity | ]; split; [discriminate | ];
    split; [reflexivity | ];
    split; [by_check | ]; split; [by_check | ];
    split; [apply (bool_decide_unpack _); vm_compute; reflexivity | ];
    split; [apply (bool_decide_unpack _); vm_compute; reflexivity | ];
    split; [reflexivity | ];
    split; [first [left; reflexivity | right; reflexivity] | ];
    split; [reflexivity | ];
    split; [ repeat (apply List.Forall_cons;
                     [ split; [reflexivity | split; eexists; reflexivity] | ]);
             apply List.Forall_nil | ];
    split; [reflexivity | ];
    split; [by_check | ];
    split; [reflexivity | ];
    split; [reflexivity | ];
    split; [vm_compute; reflexivity | ]; split; [discriminate | ];
    split; [reflexivity | ]; split; [discriminate | ];
    reflexivity).
Qed.

Lemma descriptors_follow_the_item_schema_witness :
  In login_user all_descriptors
  /\ exists name request method,
       Py.get_str "name" login_user = Some name
       /\ request_of login_user = Some request
       /\ Py.get_str "method" request = Some method
       /\ (method = "GET" \/ method = "POST").
Proof.
  assert (H : In login_user all_descriptors).
  { apply nth_In. vm_compute. repeat constructor. }
  split; [exact H | ].
  destruct (descriptors_follow_the_item_schema login_user H)
    as (name & request & method & headers & url & raw & path & description
        & Hname & _ & Hreq & _ & _ & _ & _ & Hm & Hgp & _).
  exists name, request, method. exact (conj Hname (conj Hreq (conj Hm Hgp))).
Defined.

(** X9. A descriptor has a body exactly when its method is POST, and it
    declares a Content-Type header exactly when it has a body: no GET
    request carries a payload and no payload goes without its type. *)
Theorem body_exactly_on_post :
  forall r, In r all_descriptors ->
    exists request,
      request_of r = Some request
      /\ (is_Some (Py.get "body" request)
          <-> Py.get_str "method" request = Some "POST")
      /\ (has_header_key "Content-Type" request = true
          <-> is_Some (Py.get "body" request)).
Proof.
  each_descriptor ltac:(
    eexists; split; [reflexivity | ];
    split; split; closed_implication).
Qed.

Lemma body_exactly_on_post_witness :
  In login_user all_descriptors
  /\ exists request,
       request_of login_user = Some request
       /\ (is_Some (Py.get "body" request)
           <-> Py.get_str "method" request = Some "POST").
Proof.
  assert (H : In login_user all_descriptors).
  { apply nth_In. vm_compute. repeat constructor. }
  split; [exact H | ].
  destruct (body_exactly_on_post login_user H) as (request & Hreq & Hb & _).
  exists request. exact (conj Hreq Hb).
Defined.

(** X10. The raw URL can be taken apart again: cut at the first question
    mark, the text before it split at the slashes is the host followed by
    the path segments, and the text after it, when there is one, split at
    the ampersands and then at the first equals sign is the list of the
    declared query parameters; a raw URL without a question mark has no
    query key. *)
Theorem raw_url_splits_into_its_parts :
  forall r, In r all_descriptors ->
    exists url raw,
      url_of r = Some url
      /\ Py.get_str "raw" url = Some raw
      /\ map PStr (str_split "/" (fst (str_partition "?" raw)))
         = (Py.get_list "host" url ++ Py.get_list "path" url)%list
      /\ match snd (str_partition "?" raw) with
         | None => Py.get "query" url = None
         | Some qs =>
             mapM query_item (Py.get_list "query" url)
             = Some (map (str_partition "=") (str_split "&" qs))
         end.
Proof.
  each_descriptor ltac:(
    do 2 eexists; split; [reflexivity | ]; split; [reflexivity | ];
    split; vm_compute; reflexivity).
Qed.

Lemma raw_url_splits_into_its_parts_witness :
  In login_user all_descriptors
  /\ exists url raw,
       url_of login_user = Some url
       /\ Py.get_str "raw" url = Some raw
       /\ map PStr (str_split "/" (fst (str_partition "?" raw)))
          = (Py.get_list "host" url ++ Py.get_list "path" url)%list.
Proof.
  assert (H : In login_user all_descriptors).
  { apply nth_In. vm_compute. repeat constructor. }
  split; [exact H | ].
  destruct (raw_url_splits_into_its_parts login_user H)
    as (url & raw & Hu & Hr & Hp & _).
  exists url, raw. exact (conj Hu (conj Hr Hp)).
Defined.

(** *** Variables, narrative and report against the collection *)

(** X11. The collection declares the variables base_url and auth_token,
    and nothing else is referred to: every variable reference in the text
    of a descriptor or of the collection's auth block, and every
    collection variable a script statement stores into, is one of the two;
    and each of the two is referred to by some descriptor. *)
Theorem referenced_variables_are_the_declared_ones :
  forall w : World,
    let declared := declared_variables (collection_in w) in
    declared = ["base_url"; "auth_token"]
    /\ (forall r name, In r all_descriptors ->
          In name (template_refs (descriptor_text r)) -> In name declared)
    /\ (forall auth name, Py.get "auth" (collection_in w) = Some auth ->
          In name (template_refs (descriptor_text auth)) -> In name declared)
    /\ (forall r stmt name, In r all_descriptors -> In stmt (all_statements r) ->
          In name (stored_variables stmt) -> In name declared)
    /\ (forall name, In name declared ->
          exists r, In r all_descriptors
                    /\ In name (template_refs (descriptor_text r))).
Proof.
  intros w declared.
  assert (Hd : declared = ["base_url"; "auth_token"]) by (destruct w; reflexivity).
  rewrite Hd. clear Hd declared.
  split; [reflexivity | ]. split; [ | split; [ | split]].
  - intros r name Hr. revert name.
    apply (all_descriptors_forall
             (fun r => forall name, In name (template_refs (descriptor_text r)) ->
                         In name ["base_url"; "auth_token"])); [ | exact Hr].
    repeat (apply List.Forall_cons; [intros name Hn; among Hn | ]);
      apply List.Forall_nil.
  - intros auth name Ha Hn. destruct w. vm_compute in Ha. injection Ha as <-.
    among Hn.
  - intros r stmt name Hr. revert stmt name.
    apply (all_descriptors_forall
             (fun r => forall stmt name, In stmt (all_statements r) ->
                         In name (stored_variables stmt) ->
                         In name ["base_url"; "auth_token"])); [ | exact Hr].
    repeat (apply List.Forall_cons;
            [ intros stmt name Hs Hn; vm_compute in Hs;
              repeat (destruct Hs as [<- | Hs]; [among Hn | ]); destruct Hs | ]);
      apply List.Forall_nil.
  - intros name [<- | [<- | []]].
    + exists (nth 0 all_descriptors PNone).
      split; [apply nth_In; vm_compute; repeat constructor | vm_compute; tauto].
    + exists (nth 5 all_descriptors PNone).
      split; [apply nth_In; vm_compute; repeat constructor | vm_compute; tauto].
Qed.

(** X12. Both environments give a value to every variable the collection
    declares: the development base URL is the collection's own, auth_token
    starts empty in the collection and in both environments, and every
    environment variable is enabled. *)
Theorem environments_define_the_collection_variables :
  forall w : World,
    let variables := Py.get_list "variable" (collection_in w) in
    let development := Py.get_list "values" (environment_in "development" w) in
    let production := Py.get_list "values" (environment_in "production" w) in
    (forall k, In k (declared_variables (collection_in w)) ->
       is_Some (variable_value k development)
       /\ is_Some (variable_value k production))
    /\ variable_value "base_url" development = variable_value "base_url" variables
    /\ variable_value "auth_token" variables = Some ""
    /\ variable_value "auth_token" development = Some ""
    /\ variable_value "auth_token" production = Some ""
    /\ Forall (fun v => Py.get "enabled" v = Some (PBool true))
         (development ++ production).
Proof.
  intros w. destruct w. cbv zeta.
  split.
  { intros k Hk. vm_compute in Hk.
    destruct Hk as [<- | [<- | []]]; split; vm_compute; eexists; reflexivity. }
  do 4 (split; [vm_compute; reflexivity | ]).
  vm_compute. repeat constructor.
Qed.

(** X13. The narrative agrees with what the composers build: every
    environment variable with a non-empty value is listed in the README
    with that value, every variable the collection declares is listed, and
    every folder name is a heading of the README. *)
Theorem readme_documents_environments_and_folders :
  forall w : World,
    (forall env_name v key value,
       In env_name ["development"; "production"] ->
       In v (Py.get_list "values" (environment_in env_name w)) ->
       Py.get_str "key" v = Some key -> Py.get_str "value" v = Some value ->
       value <> "" ->
       contains ("- `" ++ key ++ "`: " ++ value) generate_readme = true)
    /\ (forall k, In k (declared_variables (collection_in w)) ->
          contains ("- `" ++ k ++ "`: ") generate_readme = true)
    /\ (forall folder name, In folder built_folders ->
          Py.get_str "name" folder = Some name ->
          contains ("### " ++ name) generate_readme = true).
Proof.
  intros w. destruct w. split; [ | split].
  - intros env_name v key value He Hv Hk Hval Hne.
    destruct He as [<- | [<- | []]]; vm_compute in Hv;
      repeat (destruct Hv as [<- | Hv];
              [ vm_compute in Hk, Hval; injection Hk as <-; injection Hval as <-;
                first [ vm_compute; reflexivity | exfalso; apply Hne; reflexivity ] | ]);
      destruct Hv.
  - intros k Hk. vm_compute in Hk.
    destruct Hk as [<- | [<- | []]]; vm_compute; reflexivity.
  - intros folder name Hf Hn. unfold built_folders in Hf. cbn [In] in Hf.
    destruct Hf as [<- | [<- | [<- | [<- | []]]]];
      vm_compute in Hn; injection Hn as <-; vm_compute; reflexivity.
Qed.


(** X15. Each endpoint the report of success announces is an endpoint of
    the collection: the line is a label followed by the method and the
    path of some descriptor, and it is among the lines of the report. *)
Theorem announced_endpoints_are_in_the_collection :
  forall (w : World) (line : string),
    In line announced_endpoints ->
    In line (success_report w)
    /\ exists r label endpoint,
         In r all_descriptors
         /\ endpoint_of r = Some endpoint
         /\ line = label ++ endpoint.
Proof.
  intros w line Hl. split.
  { unfold success_report. apply in_or_app. right. exact Hl. }
  unfold announced_endpoints in Hl. cbn [In] in Hl.
  destruct Hl as [<- | [<- | [<- | [<- | [<- | []]]]]].
  - exists (nth 0 all_descriptors PNone), "   • Registro: ". eexists.
    split; [apply nth_In; vm_compute; repeat constructor | ].
    split; vm_compute; reflexivity.
  - exists (nth 1 all_descriptors PNone), "   • Login: ". eexists.
    split; [apply nth_In; vm_compute; repeat constructor | ].
    split; vm_compute; reflexivity.
  - exists (nth 2 all_descriptors PNone), "   • Componentes: ". eexists.
    split; [apply nth_In; vm_compute; repeat constructor | ].
    split; vm_compute; reflexivity.
  - exists (nth 9 all_descriptors PNone), "   • Pagos: ". eexists.
    split; [apply nth_In; vm_compute; repeat constructor | ].
    split; vm_compute; reflexivity.
  - exists (nth 13 all_descriptors PNone), "   • Documentación: ". eexists.
    split; [apply nth_In; vm_compute; repeat constructor | ].
    split; vm_compute; reflexivity.
Qed.

Lemma announced_endpoints_are_in_the_collection_witness :
  In login_line announced_endpoints
  /\ In login_line (success_report sample_world).
Proof.
  assert (H : In login_line announced_endpoints).
  { unfold announced_endpoints, login_line. cbn [In]. right. left. reflexivity. }
  split; [exact H | ].
  exact (proj1 (announced_endpoints_are_in_the_collection sample_world login_line H)).
Defined.
